(** * TaskNode: the pipeline task pill of react-topology

    A shallow embedding of
    [packages/module/src/pipelines/components/nodes/TaskNode.tsx].

    JavaScript numbers are modelled as exact rationals in canonical
    form ([Qc], whose Leibniz equality is numeric equality); optional
    values ([undefined]) as [option]; a thrown exception as the [Throw]
    branch of [Result]; the React element tree as the inductive [Elt].

    The model covers the layout memo, the source-edge effect, the
    rendering and the exported wrapper.  Rounding, infinities and a zero
    graph scale are outside it (every other division is by a literal),
    and so are the two [useAnchor] registrations, which feed nothing
    that is drawn here. *)

From Stdlib Require Import QArith Qcanon Lqa String List Bool.
From stdpp Require Import base option list numbers strings gmap.
Import ListNotations.

Local Open Scope string_scope.
Local Open Scope Qc_scope.

(** JavaScript [number]. *)
Abbreviation number := Qc.

(** An integer literal of the source. *)
Notation "# z" := (Qc_of_Z z) (at level 1, format "# z") : Qc_scope.

(** ** Exceptions *)

Inductive JsError : Type :=
| TypeError (message : string)
| Error (message : string).

Inductive Result (A : Type) : Type :=
| Ok (a : A)
| Throw (e : JsError).

Arguments Ok {A} a.
Arguments Throw {A} e.

#[global] Instance Result_ret : MRet Result := fun A a => Ok a.

#[global] Instance Result_bind : MBind Result := fun A B k r =>
  match r with
  | Ok a => k a
  | Throw e => Throw e
  end.

#[global] Instance Result_fmap : FMap Result := fun A B f r =>
  match r with
  | Ok a => Ok (f a)
  | Throw e => Throw e
  end.

(** ** Measured sizes *)

Record Size : Type := mkSize { width : number; height : number }.

(** [obj.width] on a possibly undefined object: reading a property of
    [undefined] is a [TypeError]. *)
Definition get_width (s : option Size) : Result number :=
  match s with
  | Some sz => Ok (width sz)
  | None => Throw (TypeError "Cannot read properties of undefined (reading 'width')")
  end.

(** [size?.width ?? 0] and [size?.height ?? 0]. *)
Definition width_or_0 (s : option Size) : number :=
  match s with Some sz => width sz | None => 0 end.

Definition height_or_0 (s : option Size) : number :=
  match s with Some sz => height sz | None => 0 end.

(** JavaScript truthiness of an optional string: [undefined] and the
    empty string are falsy. *)
Definition truthy_str (s : option string) : bool :=
  match s with
  | Some EmptyString => false
  | Some _ => true
  | None => false
  end.

(** Truthiness of an optional object, element or function. *)
Definition truthy {A} (o : option A) : bool :=
  match o with Some _ => true | None => false end.

(** A prop that a caller may omit ([undefined], replaced by the default
    of the destructuring pattern) or set to [null] (kept as it is). *)
Inductive Nullable (A : Type) : Type :=
| IsUndefined
| IsNull
| Value (a : A).

Arguments IsUndefined {A}.
Arguments IsNull {A}.
Arguments Value {A} a.

(** A destructuring default [x = d]: it replaces [undefined] only.  The
    result is [None] for [null]. *)
Definition with_default {A} (d : A) (x : Nullable A) : option A :=
  match x with
  | IsUndefined => Some d
  | IsNull => None
  | Value a => Some a
  end.

(** Truthiness of an optional boolean flag. *)
Definition truthy_flag (o : option bool) : bool :=
  match o with Some b => b | None => false end.

(** ** Run statuses, detail levels, graph elements *)

(** Modelled from the spec: the [RunStatus] enumeration is declared in
    [pipelines/types], outside the component file.  Every member is a
    non-empty string constant, hence truthy when set. *)
Inductive RunStatus : Type :=
| Succeeded | Failed | Running | InProgress | FailedToStart
| PipelineNotStarted | Skipped | Cancelled | Pending | Idle.

#[global] Instance RunStatus_eq_dec : EqDecision RunStatus.
Proof. solve_decision. Defined.

(** [Array.prototype.includes] on an array of statuses. *)
Definition includes_status (l : list RunStatus) (s : RunStatus) : bool :=
  existsb (fun x => bool_decide (x = s)) l.

(** [Array.prototype.includes] on an array of strings. *)
Definition includes_str (l : list string) (s : string) : bool :=
  existsb (fun x => String.eqb x s) l.

(** Modelled from the spec: the zoom-dependent rendering tiers of
    [ScaleDetailsLevel], declared in [types]. *)
Inductive ScaleDetailsLevel : Type := low | medium | high.

#[global] Instance ScaleDetailsLevel_eq_dec : EqDecision ScaleDetailsLevel.
Proof. solve_decision. Defined.

(** Values stored in an edge's auxiliary data object. *)
Inductive JsVal : Type :=
| JNum (q : number)
| JStr (s : string)
| JBool (b : bool)
| JNull.

(** An edge as the node sees it: an identity and its data object, which
    is [undefined] until someone sets it. *)
Record Edge : Type := mkEdge {
  edgeId : string;
  getData : option (gmap string JsVal)
}.

Definition setData (e : Edge) (d : gmap string JsVal) : Edge :=
  {| edgeId := edgeId e; getData := Some d |}.

(** The observable state of a graph element that the component reads:
    [getBounds()], [getLabel()], [getGraph().getDetailsLevel()],
    [getGraph().getScale()] and [getSourceEdges()]. *)
Record GraphElement : Type := mkElement {
  elementId : string;
  getBounds : Size;
  getLabel : string;
  getDetailsLevel : ScaleDetailsLevel;
  getScale : number;
  getSourceEdges : list Edge
}.

(** ** The React element tree *)

Inductive Ref : Type :=
| hoverRef | taskRef | taskIconComponentRef | nameLabelRef
| nameLabelTriggerRef | statusRef | leadIconRef | badgeRef
| badgeLabelTriggerRef | actionRef | contextRef.

(** Callbacks and property bags that the component only passes along. *)
Inductive Opaque : Type := opaque (id : string).

(** One component of an SVG [transform] attribute; [translateNaN x] is
    [translate(x, NaN)]. *)
Inductive Transform : Type :=
| translate (x y : number)
| translateNaN (x : number)
| scale (s : number).

Inductive Tag : Type :=
| g | rect | circle | line | text
| Fragment | Tooltip | Popover | StatusIcon | NodeShadows
| LabelBadge | LabelIcon | LabelActionIcon | LabelContextMenu.

#[global] Instance Tag_eq_dec : EqDecision Tag.
Proof. solve_decision. Defined.

#[local] Set Warnings "-register-all".

(** [Null] stands for every child React draws nothing for ([null],
    [undefined], [false]); [External] for a node supplied by the caller. *)
Inductive Elt : Type :=
| Null
| TextLit (s : string)
| External (id : string)
| El (tag : Tag) (props : list (string * PropVal)) (children : list Elt)
with PropVal : Type :=
| VUndefined
| VNum (q : number)
| VStr (s : string)
| VBool (b : bool)
| VRef (r : Ref)
| VTransform (t : list Transform)
| VOpaque (o : Opaque)
| VNode (e : Elt)
| VStatus (s : RunStatus)
| VSpread (o : option Opaque).

Definition VOptStr (o : option string) : PropVal :=
  match o with Some s => VStr s | None => VUndefined end.

Definition VOptOpaque (o : option Opaque) : PropVal :=
  match o with Some f => VOpaque f | None => VUndefined end.

Definition VOptNode (o : option Elt) : PropVal :=
  match o with Some e => VNode e | None => VUndefined end.

Definition VOptBool (o : option bool) : PropVal :=
  match o with Some b => VBool b | None => VUndefined end.

(** Truthiness of a [React.ReactNode] prop: [undefined], [null] and the
    empty string are falsy, an element is truthy. *)
Definition truthy_node (o : option Elt) : bool :=
  match o with
  | None | Some Null | Some (TextLit EmptyString) => false
  | Some _ => true
  end.

(** A React node prop used as a child: [undefined] draws nothing. *)
Definition child (o : option Elt) : Elt :=
  match o with Some e => e | None => Null end.

(** Does an element with tag [t] occur in the tree drawn for [e]? *)
Fixpoint contains_tag (t : Tag) (e : Elt) : bool :=
  match e with
  | El t' _ cs => bool_decide (t' = t) || existsb (contains_tag t) cs
  | _ => false
  end.

#[global] Instance Size_eq_dec : EqDecision Size.
Proof. solve_decision. Defined.

#[global] Instance Ref_eq_dec : EqDecision Ref.
Proof. solve_decision. Defined.

#[global] Instance Opaque_eq_dec : EqDecision Opaque.
Proof. solve_decision. Defined.

#[global] Instance Transform_eq_dec : EqDecision Transform.
Proof. solve_decision. Defined.

Fixpoint Elt_eq_dec (a b : Elt) {struct a} : Decision (a = b)
with PropVal_eq_dec (a b : PropVal) {struct a} : Decision (a = b).
Proof.
  - refine (match a, b with
            | Null, Null => left eq_refl
            | TextLit s, TextLit s' => cast_if (decide (s = s'))
            | External s, External s' => cast_if (decide (s = s'))
            | El t ps cs, El t' ps' cs' =>
                cast_if_and3 (decide (t = t'))
                  (@list_eq_dec _ (@prod_eq_dec _ _ _ PropVal_eq_dec) ps ps')
                  (@list_eq_dec _ Elt_eq_dec cs cs')
            | _, _ => right _
            end); abstract congruence.
  - refine (match a, b with
            | VUndefined, VUndefined => left eq_refl
            | VNum q, VNum q' => cast_if (decide (q = q'))
            | VStr q, VStr q' => cast_if (decide (q = q'))
            | VBool q, VBool q' => cast_if (decide (q = q'))
            | VRef q, VRef q' => cast_if (decide (q = q'))
            | VTransform q, VTransform q' => cast_if (decide (q = q'))
            | VOpaque q, VOpaque q' => cast_if (decide (q = q'))
            | VNode q, VNode q' => cast_if (Elt_eq_dec q q')
            | VStatus q, VStatus q' => cast_if (decide (q = q'))
            | VSpread q, VSpread q' => cast_if (decide (q = q'))
            | _, _ => right _
            end); abstract congruence.
Defined.

#[global] Instance Elt_eqdec : EqDecision Elt := Elt_eq_dec.

(** [css(...)] of @patternfly/react-styles on string arguments: falsy
    arguments are dropped, the others are joined with one space. *)
Definition css_classes (args : list (option string)) : list string :=
  omap (fun a => if truthy_str a then a else None) args.

Definition css (args : list (option string)) : string :=
  String.concat " " (css_classes args).

(** [cond && cls] as an argument of [css]. *)
Definition class_when (cond : bool) (cls : string) : option string :=
  if cond then Some cls else None.

(** ** Props and hook state *)

Definition STATUS_ICON_SIZE : number := #16.
Definition SCALE_UP_TIME : number := #200.

(** [TaskNodeProps].  A prop that may be omitted is an [option]; React
    nodes, callbacks and property bags are kept as given. *)
Record TaskNodeProps : Type := mkProps {
  children : option Elt;
  className : option string;
  element : GraphElement;
  paddingX : option number;
  paddingY : option number;
  nameLabelClass : option string;
  status : option RunStatus;
  statusIconSize : option number;
  showStatusState : option bool;
  scaleNode : option bool;
  hideDetailsAtMedium : option bool;
  hiddenDetailsShownStatuses : Nullable (list RunStatus);
  leadIcon : option Elt;
  badge : option string;
  badgeColor : option string;
  badgeTextColor : option string;
  badgeBorderColor : option string;
  badgeClassName : option string;
  badgePopoverProps : option string;
  badgeTooltip : option Elt;
  badgePopoverParams : option Opaque;
  taskIconClass : option string;
  taskIcon : option Elt;
  taskIconTooltip : option Elt;
  taskIconPadding : option number;
  hover : option bool;
  truncateLength : option number;
  disableTooltip : option bool;
  toolTip : option Elt;
  toolTipProps : option Opaque;
  hasWhenExpression : option bool;
  whenSize : option number;
  whenOffset : option number;
  actionIcon : option Elt;
  actionIconClassName : option string;
  onActionIconClick : option Opaque;
  selected : option bool;
  onSelect : option Opaque;
  onContextMenu : option Opaque;
  contextMenuOpen : option bool
}.

(** What the hooks of [TaskNodeInner] hand to one render: the hover
    flag of [useHover], the sizes of [useSize] ([None] until the
    sub-element has been measured), and the animated scale of
    [useScaleNode]. *)
Record HookState : Type := mkHooks {
  hovered : bool;
  textSize : option Size;
  statusSize : option Size;
  leadSize : option Size;
  badgeSize : option Size;
  actionSize : option Size;
  contextSize : option Size;
  nodeScale : number
}.

(** ** The layout pass *)

Module Layout.
Record t : Type := mk {
  height : number;
  statusStartX : number;
  textStartX : number;
  actionStartX : number;
  contextStartX : number;
  pillWidth : number;
  badgeStartX : number;
  iconWidth : number;
  iconStartX : number;
  leadIconStartX : number
}.

Definition zero : t := mk 0 0 0 0 0 0 0 0 0 0.
End Layout.

(** The callback handed to [React.useMemo] (lines 210-263), as a
    function of the props and hook state it closes over. *)
Definition layout (p : TaskNodeProps) (h : HookState) : Result Layout.t :=
  let paddingX := default #8 (paddingX p) in
  let paddingY := default #8 (paddingY p) in
  let statusIconSize := default STATUS_ICON_SIZE (statusIconSize p) in
  let showStatusState := default true (showStatusState p) in
  let taskIconPadding := default #4 (taskIconPadding p) in
  let textWidth := width_or_0 (textSize h) in
  let textHeight := height_or_0 (textSize h) in
  if negb (truthy (textSize h)) then mret Layout.zero
  else
    let height := textHeight + #2 * paddingY in
    let startX := paddingX + paddingX / #2 in
    let iconWidth :=
      if truthy_str (taskIconClass p) || truthy_node (taskIcon p)
      then height - taskIconPadding else 0 in
    let iconStartX := - (iconWidth * Q2Qc 0.75) in
    let statusStartX := startX - statusIconSize / #4 in
    statusSpace ←
      (if truthy (status p) && showStatusState && truthy (statusSize h)
       then w ← get_width (statusSize h); mret (w + paddingX)
       else mret 0);
    let leadIconStartX := startX + statusSpace in
    leadIconSpace ←
      (if truthy_node (leadIcon p)
       then w ← get_width (leadSize h); mret (w + paddingX)
       else mret 0);
    let textStartX := leadIconStartX + leadIconSpace in
    let textSpace := textWidth + paddingX in
    let badgeStartX := textStartX + textSpace in
    badgeSpace ←
      (if truthy_str (badge p) && truthy (badgeSize h)
       then w ← get_width (badgeSize h); mret (w + paddingX)
       else mret 0);
    let actionStartX := badgeStartX + badgeSpace in
    actionSpace ←
      (if truthy_node (actionIcon p) && truthy (actionSize h)
       then w ← get_width (actionSize h); mret (w + paddingX)
       else mret 0);
    let contextStartX := actionStartX + actionSpace in
    contextSpace ←
      (if truthy (onContextMenu p) && truthy (contextSize h)
       then w ← get_width (contextSize h); mret (w + paddingX / #2)
       else mret 0);
    let pillWidth := contextStartX + contextSpace + paddingX / #2 in
    mret {| Layout.height := height;
            Layout.statusStartX := statusStartX;
            Layout.textStartX := textStartX;
            Layout.actionStartX := actionStartX;
            Layout.contextStartX := contextStartX;
            Layout.badgeStartX := badgeStartX;
            Layout.iconWidth := iconWidth;
            Layout.iconStartX := iconStartX;
            Layout.leadIconStartX := leadIconStartX;
            Layout.pillWidth := pillWidth |}.

(** ** The memoised layout *)

(** The dependency array of the [useMemo] call (lines 263-284). *)
Module Deps.
Record t : Type := mk {
  textSize : option Size;
  textHeight : number;
  textWidth : number;
  paddingY : number;
  paddingX : number;
  taskIconClass : option string;
  taskIcon : option Elt;
  taskIconPadding : number;
  statusIconSize : number;
  status : option RunStatus;
  showStatusState : bool;
  leadSize : option Size;
  leadIcon : option Elt;
  statusSize : option Size;
  badgeSize : option Size;
  badge : option string;
  actionIcon : option Elt;
  actionSize : option Size;
  onContextMenu : option Opaque;
  contextSize : option Size
}.
End Deps.

#[global] Instance Deps_eq_dec : EqDecision Deps.t.
Proof. solve_decision. Defined.

Definition layoutDeps (p : TaskNodeProps) (h : HookState) : Deps.t :=
  {| Deps.textSize := textSize h;
     Deps.textHeight := height_or_0 (textSize h);
     Deps.textWidth := width_or_0 (textSize h);
     Deps.paddingY := default #8 (paddingY p);
     Deps.paddingX := default #8 (paddingX p);
     Deps.taskIconClass := taskIconClass p;
     Deps.taskIcon := taskIcon p;
     Deps.taskIconPadding := default #4 (taskIconPadding p);
     Deps.statusIconSize := default STATUS_ICON_SIZE (statusIconSize p);
     Deps.status := status p;
     Deps.showStatusState := default true (showStatusState p);
     Deps.leadSize := leadSize h;
     Deps.leadIcon := leadIcon p;
     Deps.statusSize := statusSize h;
     Deps.badgeSize := badgeSize h;
     Deps.badge := badge p;
     Deps.actionIcon := actionIcon p;
     Deps.actionSize := actionSize h;
     Deps.onContextMenu := onContextMenu p;
     Deps.contextSize := contextSize h |}.

(** The cell React keeps for one [useMemo] call: the dependencies and
    the value of the last computation, nothing before the first. *)
Definition MemoCell : Type := option (Deps.t * Layout.t).

(** ** What the component imports *)

(** The class names the component takes from its two CSS modules. *)
Record Styles : Type := mkStyles {
  topologyPipelinesPill : string;
  topologyPipelinesPillText : string;
  topologyPipelinesPillBackground : string;
  topologyPipelinesPillStatus : string;
  topologyPipelinesPillBadge : string;
  topologyPipelinesStatusIcon : string;
  topologyPipelinesStatusIconBackground : string;
  modifiers_hover : string;
  modifiers_selected : string;
  modifiers_selectable : string;
  modifiers_danger : string;
  modifiers_spin : string;
  topologyNodeSeparator : string
}.

(** The functions and constants imported from the rest of the library
    and from React.  [same_deps] is React's comparison of two dependency
    arrays with [Object.is]: arrays it finds equal hold equal values. *)
Class Imports : Type := mkImports {
  styles : Styles;
  isNode : GraphElement -> bool;
  truncateMiddle : string -> number -> string -> string;
  getRunStatusModifier : option RunStatus -> string;
  nonShadowModifiers : list string;
  createSvgIdUrl : string -> string;
  NODE_SHADOW_FILTER_ID_DANGER : string;
  NODE_SHADOW_FILTER_ID_HOVER : string;
  getNodeScaleTranslation :
    GraphElement -> number -> option bool -> number * number;
  same_deps : Deps.t -> Deps.t -> bool;
  same_deps_eq : forall a b, same_deps a b = true -> a = b
}.

(** [React.useMemo(factory, deps)]: the cached value is reused when the
    dependencies are unchanged; otherwise the factory runs, and its
    value is cached unless it throws. *)
Definition useMemo `{Imports} (cell : MemoCell) (factory : Result Layout.t)
    (deps : Deps.t) : Result (Layout.t * MemoCell) :=
  let compute := v ← factory; mret (v, Some (deps, v)) in
  match cell with
  | Some (prev, v) => if same_deps prev deps then mret (v, cell) else compute
  | None => compute
  end.

Definition useLayout `{Imports} (cell : MemoCell) (p : TaskNodeProps)
    (h : HookState) : Result (Layout.t * MemoCell) :=
  useMemo cell (layout p h) (layoutDeps p h).

(** The cells a component instance can hold: none before the first
    render, then whatever a render that returned left behind. *)
Inductive reachable `{Imports} : MemoCell -> Prop :=
| reachable_init : reachable None
| reachable_render cell p h l cell' :
    reachable cell ->
    useLayout cell p h = Ok (l, cell') ->
    reachable cell'.

(** ** The source-edge indent effect (lines 286-294) *)

Definition sourceEdgesEffect (p : TaskNodeProps) (pillWidth : number)
  : list Edge :=
  let width := width (getBounds (element p)) in
  let detailsLevel := getDetailsLevel (element p) in
  let sourceEdges := getSourceEdges (element p) in
  map (fun edge =>
         let data := getData edge in
         setData edge
           (<["indent" :=
                JNum (if bool_decide (detailsLevel = high)
                      then width - pillWidth else 0)]>
              (default ∅ data)))
      sourceEdges.

(** ** Rendering (lines 156-171, 296-512) *)

Definition isHover (p : TaskNodeProps) (h : HookState) : bool :=
  match hover p with
  | Some b => b
  | None => hovered h
  end.

Definition label `{Imports} (p : TaskNodeProps) : string :=
  truncateMiddle (getLabel (element p)) (default #14 (truncateLength p)) "...".

(** The warning logged when the deprecated prop is used. *)
Definition consoleWarnings (p : TaskNodeProps) : list string :=
  if truthy_str (badgePopoverProps p)
  then ["badgePopoverProps is deprecated. Use badgePopoverParams instead."]
  else [].

Definition nameLabel `{Imports} (p : TaskNodeProps) : Elt :=
  El text
    [("ref", VRef nameLabelRef);
     ("className", VStr (css [Some (topologyPipelinesPillText styles)]));
     ("dominantBaseline", VStr "middle")]
    [TextLit (label p)].

Definition runStatusModifier `{Imports} (p : TaskNodeProps) : string :=
  getRunStatusModifier (status p).

(** The arguments of the [css] call that builds [pillClasses]. *)
Definition pillClassArgs `{Imports} (p : TaskNodeProps) (h : HookState)
  : list (option string) :=
  [Some (topologyPipelinesPill styles);
   className p;
   class_when (isHover p h) (modifiers_hover styles);
   Some (runStatusModifier p);
   class_when (truthy_flag (selected p)) (modifiers_selected styles);
   class_when (truthy (onSelect p)) (modifiers_selectable styles)].

Definition pillClasses `{Imports} (p : TaskNodeProps) (h : HookState)
  : string :=
  css (pillClassArgs p h).

(** [let filter: string], assigned in at most one of two branches. *)
Definition filter `{Imports} (p : TaskNodeProps) (h : HookState)
  : option string :=
  if String.eqb (runStatusModifier p) (modifiers_danger styles)
  then Some (createSvgIdUrl NODE_SHADOW_FILTER_ID_DANGER)
  else if isHover p h
          && negb (includes_str nonShadowModifiers (runStatusModifier p))
  then Some (createSvgIdUrl NODE_SHADOW_FILTER_ID_HOVER)
  else None.

Definition taskIconComponent (p : TaskNodeProps) (l : Layout.t)
  : option Elt :=
  if truthy_str (taskIconClass p) || truthy_node (taskIcon p)
  then Some (El LabelIcon
               [("x", VNum (Layout.iconStartX l + Layout.iconWidth l));
                ("y", VNum ((Layout.height l - Layout.iconWidth l) / #2));
                ("width", VNum (Layout.iconWidth l));
                ("height", VNum (Layout.iconWidth l));
                ("iconClass", VOptStr (taskIconClass p));
                ("icon", VOptNode (taskIcon p));
                ("padding", VNum (default #4 (taskIconPadding p)));
                ("innerRef", VRef taskIconComponentRef)]
               [])
  else None.

Definition badgeLabel `{Imports} (p : TaskNodeProps) (h : HookState)
    (l : Layout.t) : option Elt :=
  if truthy_str (badge p)
  then Some (El LabelBadge
               [("ref", VRef badgeRef);
                ("innerRef", VRef badgeLabelTriggerRef);
                ("x", VNum (Layout.badgeStartX l));
                ("y", VNum ((Layout.height l - height_or_0 (badgeSize h))
                            / #2));
                ("badge", VOptStr (badge p));
                ("badgeClassName",
                 VStr (default (topologyPipelinesPillBadge styles)
                               (badgeClassName p)));
                ("badgeColor", VOptStr (badgeColor p));
                ("badgeTextColor", VOptStr (badgeTextColor p));
                ("badgeBorderColor", VOptStr (badgeBorderColor p))]
               [])
  else None.

Definition badgeComponent `{Imports} (p : TaskNodeProps) (h : HookState)
    (l : Layout.t) : Elt :=
  let badgeLabel := badgeLabel p h l in
  if truthy badgeLabel && truthy_node (badgeTooltip p)
  then El Tooltip
         [("triggerRef", VRef badgeLabelTriggerRef);
          ("content", VOptNode (badgeTooltip p))]
         [child badgeLabel]
  else if truthy badgeLabel && truthy (badgePopoverParams p)
  then El g
         [("onClick", VOpaque (opaque "e => e.stopPropagation()"))]
         [El Popover
            [("triggerRef", VRef badgeLabelTriggerRef);
             ("...", VSpread (badgePopoverParams p))]
            [child badgeLabel]]
  else child badgeLabel.

(** [(status === RunStatus.Running || status === RunStatus.InProgress)
    && styles.modifiers.spin] *)
Definition spinClass `{Imports} (p : TaskNodeProps) : option string :=
  class_when (bool_decide (status p = Some Running)
              || bool_decide (status p = Some InProgress))
             (modifiers_spin styles).

(** The test that opens [renderTask]. *)
Definition detailsHidden (p : TaskNodeProps) : bool :=
  default true (showStatusState p)
  && negb (truthy_flag (scaleNode p))
  && truthy_flag (hideDetailsAtMedium p)
  && negb (bool_decide (getDetailsLevel (element p) = high)).

(** The test that decides whether the collapsed rendering draws the
    status icon: [status && (!hiddenDetailsShownStatuses ||
    hiddenDetailsShownStatuses.includes(status))]. *)
Definition hiddenStatusShown (p : TaskNodeProps) : bool :=
  let hiddenDetailsShownStatuses :=
    with_default [Failed; FailedToStart; Cancelled]
                 (hiddenDetailsShownStatuses p) in
  match status p with
  | Some status =>
      match hiddenDetailsShownStatuses with
      | None => true
      | Some shown => includes_status shown status
      end
  | None => false
  end.

(** The first branch of [renderTask]: the status dot (lines 365-397). *)
Definition statusDot `{Imports} (p : TaskNodeProps) : Elt :=
  let statusIconSize := default STATUS_ICON_SIZE (statusIconSize p) in
  let scale_ := getScale (element p) in
  let statusBackgroundRadius := statusIconSize / #2 + #4 in
  let height := height (getBounds (element p)) in
  let upScale := 1 / scale_ in
  El g
    [("transform",
      VTransform
        [translate 0 ((height - statusBackgroundRadius * #2 * upScale) / #2);
         scale upScale]);
     ("ref", VRef taskRef)]
    [El circle
       [("className",
         VStr (css [Some (topologyPipelinesStatusIconBackground styles);
                    Some (topologyPipelinesPillStatus styles);
                    Some (runStatusModifier p);
                    class_when (truthy_flag (selected p)) "pf-m-selected"]));
        ("cx", VNum statusBackgroundRadius);
        ("cy", VNum statusBackgroundRadius);
        ("r", VNum statusBackgroundRadius)]
       [];
     if hiddenStatusShown p
     then El g
            [("transform", VTransform [translate #4 #4])]
            [El g
               [("className",
                 VStr (css [Some (topologyPipelinesStatusIcon styles);
                            Some (runStatusModifier p);
                            class_when (truthy_flag (selected p))
                                       "pf-m-selected";
                            spinClass p]))]
               [El StatusIcon
                  [("status", match status p with
                              | Some s => VStatus s
                              | None => VUndefined
                              end)]
                  []]]
     else Null].

(** The second branch of [renderTask]: the pill (lines 399-495). *)
Definition labelGroup `{Imports} (p : TaskNodeProps) (h : HookState)
    (l : Layout.t) : Elt :=
  let paddingY := default #8 (paddingY p) in
  let textHeight := height_or_0 (textSize h) in
  let disableTooltip := default false (disableTooltip p) in
  El g
    [("transform",
      VTransform [translate (Layout.textStartX l)
                            (paddingY + textHeight / #2 + 1)])]
    [if negb (String.eqb (getLabel (element p)) (label p))
        && negb disableTooltip
     then El Tooltip
            [("triggerRef", VRef nameLabelTriggerRef);
             ("content", VStr (getLabel (element p)))]
            [El g [] [nameLabel p]]
     else nameLabel p].

Definition statusGroup `{Imports} (p : TaskNodeProps) (l : Layout.t) : Elt :=
  let paddingX := default #8 (paddingX p) in
  let statusIconSize := default STATUS_ICON_SIZE (statusIconSize p) in
  if truthy (status p) && default true (showStatusState p)
  then El g
         [("transform",
           VTransform [translate (Layout.statusStartX l + paddingX / #2)
                                 ((Layout.height l - statusIconSize) / #2)]);
          ("ref", VRef statusRef)]
         [El g
            [("className",
              VStr (css [Some (topologyPipelinesPillStatus styles);
                         Some (runStatusModifier p);
                         class_when (truthy_flag (selected p))
                                    "pf-m-selected";
                         spinClass p]))]
            [El StatusIcon
               [("status", match status p with
                           | Some s => VStatus s
                           | None => VUndefined
                           end)]
               []]]
  else Null.

(** [(height - leadSize?.height ?? 0) / 2]: the subtraction binds
    tighter than [??], so an unmeasured lead icon gives [NaN]. *)
Definition leadIconGroup (p : TaskNodeProps) (h : HookState) (l : Layout.t)
  : Elt :=
  if truthy_node (leadIcon p)
  then El g
         [("transform",
           VTransform
             [match leadSize h with
              | Some sz =>
                  translate (Layout.leadIconStartX l)
                            ((Layout.height l - height sz) / #2)
              | None => translateNaN (Layout.leadIconStartX l)
              end]);
          ("ref", VRef leadIconRef)]
         [child (leadIcon p)]
  else Null.

Definition taskIconGroup (p : TaskNodeProps) (l : Layout.t) : Elt :=
  match taskIconComponent p l with
  | Some icon =>
      if truthy_node (taskIconTooltip p)
      then El Tooltip
             [("triggerRef", VRef taskIconComponentRef);
              ("content", VOptNode (taskIconTooltip p))]
             [icon]
      else icon
  | None => Null
  end.

Definition separator `{Imports} (x : number) (l : Layout.t) : Elt :=
  El line
    [("className", VStr (css [Some (topologyNodeSeparator styles)]));
     ("x1", VNum x); ("y1", VNum 0);
     ("x2", VNum x); ("y2", VNum (Layout.height l));
     ("shapeRendering", VStr "crispEdges")]
    [].

Definition actionGroup `{Imports} (p : TaskNodeProps) (l : Layout.t) : Elt :=
  if truthy_node (actionIcon p)
  then El Fragment []
         [separator (Layout.actionStartX l) l;
          El LabelActionIcon
            [("ref", VRef actionRef);
             ("x", VNum (Layout.actionStartX l));
             ("y", VNum 0);
             ("height", VNum (Layout.height l));
             ("paddingX", VNum (default #8 (paddingX p)));
             ("paddingY", VNum 0);
             ("icon", VOptNode (actionIcon p));
             ("className", VOptStr (actionIconClassName p));
             ("onClick", VOptOpaque (onActionIconClick p))]
            []]
  else Null.

Definition contextGroup `{Imports} (p : TaskNodeProps) (h : HookState)
    (l : Layout.t) : Elt :=
  if truthy (textSize h) && truthy (onContextMenu p)
  then El Fragment []
         [separator (Layout.contextStartX l) l;
          El LabelContextMenu
            [("ref", VRef contextRef);
             ("x", VNum (Layout.contextStartX l));
             ("y", VNum 0);
             ("height", VNum (Layout.height l));
             ("paddingX", VNum (default #8 (paddingX p)));
             ("paddingY", VNum 0);
             ("onContextMenu", VOptOpaque (onContextMenu p));
             ("contextMenuOpen", VOptBool (contextMenuOpen p))]
            []]
  else Null.

Definition pill `{Imports} (p : TaskNodeProps) (h : HookState)
    (l : Layout.t) : Elt :=
  let whenSize := default 0 (whenSize p) in
  let whenOffset := default 0 (whenOffset p) in
  El g
    [("className", VStr (pillClasses p h));
     ("transform", VTransform [translate (whenOffset + whenSize) 0]);
     ("onClick", VOptOpaque (onSelect p));
     ("onContextMenu", VOptOpaque (onContextMenu p));
     ("ref", VRef taskRef)]
    [El NodeShadows [] [];
     El rect
       [("x", VNum 0); ("y", VNum 0);
        ("width", VNum (Layout.pillWidth l));
        ("height", VNum (Layout.height l));
        ("rx", VNum (Layout.height l / #2));
        ("className",
         VStr (css [Some (topologyPipelinesPillBackground styles)]));
        ("filter", VOptStr (filter p h))]
       [];
     labelGroup p h l;
     statusGroup p l;
     leadIconGroup p h l;
     taskIconGroup p l;
     badgeComponent p h l;
     actionGroup p l;
     contextGroup p h l;
     child (children p)].

Definition renderTask `{Imports} (p : TaskNodeProps) (h : HookState)
    (l : Layout.t) : Elt :=
  if detailsHidden p then statusDot p else pill p h l.

(** What [TaskNodeInner] returns (lines 498-512), given the layout. *)
Definition render `{Imports} (p : TaskNodeProps) (h : HookState)
    (l : Layout.t) : Elt :=
  let '(translateX, translateY) :=
    getNodeScaleTranslation (element p) (nodeScale h) (scaleNode p) in
  El g
    [("className",
      VStr (css [Some "pf-topology__pipelines__task-node"; className p]));
     ("transform",
      VTransform ((if truthy_flag (scaleNode p)
                   then [translate translateX translateY] else [])
                  ++ [scale (nodeScale h)]));
     ("ref", VRef hoverRef)]
    [if negb (truthy_node (toolTip p)) || default false (disableTooltip p)
     then renderTask p h l
     else El Tooltip
            [("triggerRef", VRef taskRef);
             ("position", VStr "bottom");
             ("enableFlip", VBool false);
             ("...", VSpread (toolTipProps p));
             ("content", VOptNode (toolTip p))]
            [renderTask p h l]].

(** One render of [TaskNodeInner]: the layout comes from the memo cell,
    and a throwing layout pass aborts the render. *)
Definition TaskNodeInner `{Imports} (p : TaskNodeProps) (h : HookState)
    (cell : MemoCell) : Result (Elt * MemoCell) :=
  '(l, cell') ← useLayout cell p h;
  mret (render p h l, cell').

(** ** The exported component (lines 515-550) *)

(** The element [<TaskNodeInner ... />]: React has not rendered it yet. *)
Inductive ReactElement : Type :=
| TaskNodeInnerElement (props : TaskNodeProps).

(** The props [TaskNode] passes on: its own defaults, then [...rest]. *)
Definition innerProps `{Imports} (p : TaskNodeProps) : TaskNodeProps :=
  {| children := children p;
     className := className p;
     element := element p;
     paddingX := Some (default #8 (paddingX p));
     paddingY := Some (default #8 (paddingY p));
     nameLabelClass := nameLabelClass p;
     status := status p;
     statusIconSize := Some (default STATUS_ICON_SIZE (statusIconSize p));
     showStatusState := Some (default true (showStatusState p));
     scaleNode := scaleNode p;
     hideDetailsAtMedium := hideDetailsAtMedium p;
     hiddenDetailsShownStatuses :=
       match hiddenDetailsShownStatuses p with
       | IsUndefined => Value [Failed; FailedToStart; Cancelled]
       | other => other
       end;
     leadIcon := leadIcon p;
     badge := badge p;
     badgeColor := badgeColor p;
     badgeTextColor := badgeTextColor p;
     badgeBorderColor := badgeBorderColor p;
     badgeClassName :=
       Some (default (topologyPipelinesPillBadge styles) (badgeClassName p));
     badgePopoverProps := badgePopoverProps p;
     badgeTooltip := badgeTooltip p;
     badgePopoverParams := badgePopoverParams p;
     taskIconClass := taskIconClass p;
     taskIcon := taskIcon p;
     taskIconTooltip := taskIconTooltip p;
     taskIconPadding := Some (default #4 (taskIconPadding p));
     hover := hover p;
     truncateLength := Some (default #14 (truncateLength p));
     disableTooltip := Some (default false (disableTooltip p));
     toolTip := toolTip p;
     toolTipProps := toolTipProps p;
     hasWhenExpression := Some (default false (hasWhenExpression p));
     whenSize := Some (default 0 (whenSize p));
     whenOffset := Some (default 0 (whenOffset p));
     actionIcon := actionIcon p;
     actionIconClassName := actionIconClassName p;
     onActionIconClick := onActionIconClick p;
     selected := selected p;
     onSelect := onSelect p;
     onContextMenu := onContextMenu p;
     contextMenuOpen := contextMenuOpen p |}.

Definition TaskNode `{Imports} (p : TaskNodeProps) : Result ReactElement :=
  if negb (isNode (element p))
  then Throw (Error "TaskNode must be used only on Node elements")
  else mret (TaskNodeInnerElement (innerProps p)).

(** ** Closed forms used to state the layout facts *)

(** The width reserved for an optional sub-element whose measurement is
    guarded: [cond && size ? size.width + pad : 0]. *)
Definition guarded_space (cond : bool) (size : option Size) (pad : number)
  : number :=
  match size with
  | Some sz => if cond then width sz + pad else 0
  | None => 0
  end.

(** The width reserved for the lead icon, whose measurement is read
    without a guard: [leadIcon ? leadSize.width + paddingX : 0]. *)
Definition lead_space (p : TaskNodeProps) (h : HookState) (pad : number)
  : Result number :=
  if truthy_node (leadIcon p)
  then w ← get_width (leadSize h); mret (w + pad)
  else mret 0.

Definition status_shown (p : TaskNodeProps) : bool :=
  truthy (status p) && default true (showStatusState p).

(** The layout of a render whose label is measured, given the space
    [lead] taken by the lead icon. *)
Definition chain_layout (p : TaskNodeProps) (h : HookState) (lead : number)
  : Layout.t :=
  let padX := default #8 (paddingX p) in
  let start := padX + padX / #2 in
  let hgt := height_or_0 (textSize h) + #2 * default #8 (paddingY p) in
  let icon :=
    if truthy_str (taskIconClass p) || truthy_node (taskIcon p)
    then hgt - default #4 (taskIconPadding p) else 0 in
  let leadX := start + guarded_space (status_shown p) (statusSize h) padX in
  let textX := leadX + lead in
  let badgeX := textX + (width_or_0 (textSize h) + padX) in
  let actionX :=
    badgeX + guarded_space (truthy_str (badge p)) (badgeSize h) padX in
  let contextX :=
    actionX + guarded_space (truthy_node (actionIcon p)) (actionSize h) padX in
  {| Layout.height := hgt;
     Layout.statusStartX :=
       start - default STATUS_ICON_SIZE (statusIconSize p) / #4;
     Layout.textStartX := textX;
     Layout.actionStartX := actionX;
     Layout.contextStartX := contextX;
     Layout.pillWidth :=
       contextX
       + guarded_space (truthy (onContextMenu p)) (contextSize h) (padX / #2)
       + padX / #2;
     Layout.badgeStartX := badgeX;
     Layout.iconWidth := icon;
     Layout.iconStartX := - (icon * Q2Qc 0.75);
     Layout.leadIconStartX := leadX |}.


(** Every sub-element that has been measured has a non-negative width. *)
Definition measured_widths_nonneg (h : HookState) : Prop :=
  forall sz,
    In (Some sz) [textSize h; statusSize h; leadSize h; badgeSize h;
                  actionSize h; contextSize h] ->
    0 <= width sz.

(** Two renders with the same layout inputs: equal measured sizes, equal
    paddings and icon sizes, and equal presence flags. *)
Record same_layout_inputs (p1 : TaskNodeProps) (h1 : HookState)
    (p2 : TaskNodeProps) (h2 : HookState) : Prop := mkSame {
  same_textSize : textSize h1 = textSize h2;
  same_statusSize : statusSize h1 = statusSize h2;
  same_leadSize : leadSize h1 = leadSize h2;
  same_badgeSize : badgeSize h1 = badgeSize h2;
  same_actionSize : actionSize h1 = actionSize h2;
  same_contextSize : contextSize h1 = contextSize h2;
  same_paddingX : default #8 (paddingX p1) = default #8 (paddingX p2);
  same_paddingY : default #8 (paddingY p1) = default #8 (paddingY p2);
  same_statusIconSize :
    default STATUS_ICON_SIZE (statusIconSize p1)
    = default STATUS_ICON_SIZE (statusIconSize p2);
  same_taskIconPadding :
    default #4 (taskIconPadding p1) = default #4 (taskIconPadding p2);
  same_status : truthy (status p1) = truthy (status p2);
  same_showStatusState :
    default true (showStatusState p1) = default true (showStatusState p2);
  same_leadIcon : truthy_node (leadIcon p1) = truthy_node (leadIcon p2);
  same_badge : truthy_str (badge p1) = truthy_str (badge p2);
  same_taskIcon :
    truthy_str (taskIconClass p1) || truthy_node (taskIcon p1)
    = truthy_str (taskIconClass p2) || truthy_node (taskIcon p2);
  same_actionIcon : truthy_node (actionIcon p1) = truthy_node (actionIcon p2);
  same_onContextMenu :
    truthy (onContextMenu p1) = truthy (onContextMenu p2)
}.

(** The status is a member of the [hiddenDetailsShownStatuses] in force
    (the default list when the prop is omitted); [null] has no members. *)
Definition status_in_shown_statuses (p : TaskNodeProps) : bool :=
  match status p,
        with_default [Failed; FailedToStart; Cancelled]
                     (hiddenDetailsShownStatuses p) with
  | Some s, Some shown => includes_status shown s
  | _, _ => false
  end.

(** ** Concrete imports and inputs, to run the model on *)

Definition sample_styles : Styles :=
  {| topologyPipelinesPill := "pf-topology-pipelines__pill";
     topologyPipelinesPillText := "pf-topology-pipelines__pill-text";
     topologyPipelinesPillBackground := "pf-topology-pipelines__pill-background";
     topologyPipelinesPillStatus := "pf-topology-pipelines__pill-status";
     topologyPipelinesPillBadge := "pf-topology-pipelines__pill-badge";
     topologyPipelinesStatusIcon := "pf-topology-pipelines__status-icon";
     topologyPipelinesStatusIconBackground :=
       "pf-topology-pipelines__status-icon-background";
     modifiers_hover := "pf-m-hover";
     modifiers_selected := "pf-m-selected";
     modifiers_selectable := "pf-m-selectable";
     modifiers_danger := "pf-m-danger";
     modifiers_spin := "pf-m-spin";
     topologyNodeSeparator := "pf-topology__node-separator" |}.

Definition sample_getRunStatusModifier (s : option RunStatus) : string :=
  match s with
  | Some Failed | Some FailedToStart => "pf-m-danger"
  | Some Succeeded => "pf-m-success"
  | Some Cancelled => "pf-m-warning"
  | Some Skipped => "pf-m-skipped"
  | Some Running => "pf-m-running"
  | Some InProgress => "pf-m-in-progress"
  | Some Pending => "pf-m-pending"
  | Some Idle => "pf-m-idle"
  | _ => ""
  end.

(** Keeps a text of at most [len] characters, else its first three
    characters and the omission. *)
Definition sample_truncateMiddle (s : string) (len : number) (omission : string)
  : string :=
  if Qle_bool (inject_Z (Z.of_nat (String.length s))) len
  then s else String.substring 0 3 s ++ omission.

Definition sample_isNode (e : GraphElement) : bool :=
  String.eqb (elementId e) "node".

#[global] Instance sample_imports : Imports :=
  {| styles := sample_styles;
     isNode := sample_isNode;
     truncateMiddle := sample_truncateMiddle;
     getRunStatusModifier := sample_getRunStatusModifier;
     nonShadowModifiers :=
       ["pf-m-danger"; "pf-m-warning"; "pf-m-success"; "pf-m-skipped";
        "pf-m-in-progress"];
     createSvgIdUrl := fun id => "url(#" ++ id ++ ")";
     NODE_SHADOW_FILTER_ID_DANGER := "NodeShadowsFilterId--danger";
     NODE_SHADOW_FILTER_ID_HOVER := "NodeShadowsFilterId--hover";
     getNodeScaleTranslation := fun _ _ _ => (0, 0);
     same_deps := fun a b => bool_decide (a = b);
     same_deps_eq := fun a b Hab => bool_decide_eq_true_1 _ Hab |}.

Definition sample_edge : Edge :=
  mkEdge "e1" (Some (<["tag" := JStr "x"]> (<["indent" := JNum #3]> ∅))).

Definition sample_node : GraphElement :=
  {| elementId := "node";
     getBounds := mkSize #180 #32;
     getLabel := "build-and-unit-test";
     getDetailsLevel := high;
     getScale := 1;
     getSourceEdges := [sample_edge; mkEdge "e2" None] |}.

(** Props that set nothing but the element. *)
Definition bare_props (e : GraphElement) : TaskNodeProps :=
  {| children := None; className := None; element := e;
     paddingX := None; paddingY := None; nameLabelClass := None;
     status := None; statusIconSize := None;
     showStatusState := None; scaleNode := None;
     hideDetailsAtMedium := None;
     hiddenDetailsShownStatuses := IsUndefined;
     leadIcon := None; badge := None; badgeColor := None;
     badgeTextColor := None; badgeBorderColor := None;
     badgeClassName := None; badgePopoverProps := None;
     badgeTooltip := None; badgePopoverParams := None;
     taskIconClass := None; taskIcon := None; taskIconTooltip := None;
     taskIconPadding := None; hover := None; truncateLength := None;
     disableTooltip := None; toolTip := None; toolTipProps := None;
     hasWhenExpression := None; whenSize := None; whenOffset := None;
     actionIcon := None; actionIconClassName := None;
     onActionIconClick := None; selected := None; onSelect := None;
     onContextMenu := None; contextMenuOpen := None |}.

(** The props the examples vary: status, lead icon, badge with its
    tooltip and popover, the collapse switch with its status list, and
    the hover flag. *)
Definition task_props (e : GraphElement) (st : option RunStatus)
    (lead : option Elt) (bdg : option string) (bdgTip : option Elt)
    (bdgPop : option Opaque) (hide : option bool)
    (shown : Nullable (list RunStatus)) (hov : option bool)
  : TaskNodeProps :=
  let b := bare_props e in
  {| children := children b; className := className b; element := e;
     paddingX := paddingX b; paddingY := paddingY b;
     nameLabelClass := nameLabelClass b;
     status := st; statusIconSize := statusIconSize b;
     showStatusState := showStatusState b; scaleNode := scaleNode b;
     hideDetailsAtMedium := hide;
     hiddenDetailsShownStatuses := shown;
     leadIcon := lead; badge := bdg; badgeColor := badgeColor b;
     badgeTextColor := badgeTextColor b;
     badgeBorderColor := badgeBorderColor b;
     badgeClassName := badgeClassName b;
     badgePopoverProps := badgePopoverProps b;
     badgeTooltip := bdgTip; badgePopoverParams := bdgPop;
     taskIconClass := taskIconClass b; taskIcon := taskIcon b;
     taskIconTooltip := taskIconTooltip b;
     taskIconPadding := taskIconPadding b; hover := hov;
     truncateLength := truncateLength b;
     disableTooltip := disableTooltip b; toolTip := toolTip b;
     toolTipProps := toolTipProps b;
     hasWhenExpression := hasWhenExpression b; whenSize := whenSize b;
     whenOffset := whenOffset b;
     actionIcon := actionIcon b;
     actionIconClassName := actionIconClassName b;
     onActionIconClick := onActionIconClick b; selected := selected b;
     onSelect := onSelect b;
     onContextMenu := onContextMenu b;
     contextMenuOpen := contextMenuOpen b |}.

(** A running task with nothing else set. *)
Definition sample_props : TaskNodeProps :=
  task_props sample_node (Some Running) None None None None None
             IsUndefined None.

(** The same task after the caller has added a lead icon. *)
Definition lead_icon_props : TaskNodeProps :=
  task_props sample_node (Some Running) (Some (External "lead-icon"))
             None None None None IsUndefined None.

(** The hooks before anything has been measured. *)
Definition unmeasured_hooks : HookState :=
  {| hovered := false; textSize := None; statusSize := None;
     leadSize := None; badgeSize := None; actionSize := None;
     contextSize := None; nodeScale := 1 |}.

(** The hooks after the label and the status icon have been measured. *)
Definition measured_hooks : HookState :=
  {| hovered := false;
     textSize := Some (mkSize #50 #16);
     statusSize := Some (mkSize #16 #16);
     leadSize := None; badgeSize := None; actionSize := None;
     contextSize := None; nodeScale := 1 |}.

(** The same node seen from far away. *)
Definition zoomed_out_node : GraphElement :=
  {| elementId := "node";
     getBounds := mkSize #180 #32;
     getLabel := "build-and-unit-test";
     getDetailsLevel := low;
     getScale := 1;
     getSourceEdges := [sample_edge; mkEdge "e2" None] |}.

(** An element that is not a node. *)
Definition sample_edge_element : GraphElement :=
  {| elementId := "edge";
     getBounds := mkSize 0 0;
     getLabel := "";
     getDetailsLevel := high;
     getScale := 1;
     getSourceEdges := [] |}.

(** A running task drawn collapsed, with the list of shown statuses set
    to [null]. *)
Definition collapsed_null_props : TaskNodeProps :=
  task_props zoomed_out_node (Some Running) None None None None (Some true)
             IsNull None.

(** A failed task drawn collapsed, with the default list. *)
Definition collapsed_failed_props : TaskNodeProps :=
  task_props zoomed_out_node (Some Failed) None None None None (Some true)
             IsUndefined None.

(** A task with a badge that has both a tooltip and popover parameters. *)
Definition badge_props : TaskNodeProps :=
  task_props sample_node (Some Running) None (Some "3")
             (Some (External "badge-tip")) (Some (opaque "popover-params"))
             None IsUndefined None.

(** A failed task under the pointer. *)
Definition hovered_failed_props : TaskNodeProps :=
  task_props sample_node (Some Failed) None None None None None
             IsUndefined (Some true).

(** ** Anchors (lines 180-197) *)

(** The arguments [TaskNodeInner] hands to [TaskNodeSourceAnchor]: the
    details level and the status icon size plus 4. *)
Definition sourceAnchorArgs (p : TaskNodeProps) : ScaleDetailsLevel * number :=
  (getDetailsLevel (element p),
   default STATUS_ICON_SIZE (statusIconSize p) + #4).

(** The offset [TaskNodeInner] hands to [TaskNodeTargetAnchor]:
    [hasWhenExpression ? 0 : whenSize + whenOffset]. *)
Definition targetAnchorOffset (p : TaskNodeProps) : number :=
  if default false (hasWhenExpression p)
  then 0
  else default 0 (whenSize p) + default 0 (whenOffset p).

(** ** Helpers to state the further facts *)

(** The props of an element. *)
Definition elt_props (e : Elt) : list (string * PropVal) :=
  match e with
  | El _ props _ => props
  | _ => []
  end.

(** The same props with other values for [nameLabelClass],
    [badgePopoverProps] and [hasWhenExpression]. *)
Definition with_side_props (cls : option string) (popoverProps : option string)
    (whenExpr : option bool) (p : TaskNodeProps) : TaskNodeProps :=
  {| children := children p; className := className p;
     element := element p;
     paddingX := paddingX p; paddingY := paddingY p;
     nameLabelClass := cls;
     status := status p; statusIconSize := statusIconSize p;
     showStatusState := showStatusState p; scaleNode := scaleNode p;
     hideDetailsAtMedium := hideDetailsAtMedium p;
     hiddenDetailsShownStatuses := hiddenDetailsShownStatuses p;
     leadIcon := leadIcon p; badge := badge p; badgeColor := badgeColor p;
     badgeTextColor := badgeTextColor p;
     badgeBorderColor := badgeBorderColor p;
     badgeClassName := badgeClassName p;
     badgePopoverProps := popoverProps;
     badgeTooltip := badgeTooltip p;
     badgePopoverParams := badgePopoverParams p;
     taskIconClass := taskIconClass p; taskIcon := taskIcon p;
     taskIconTooltip := taskIconTooltip p;
     taskIconPadding := taskIconPadding p; hover := hover p;
     truncateLength := truncateLength p;
     disableTooltip := disableTooltip p; toolTip := toolTip p;
     toolTipProps := toolTipProps p;
     hasWhenExpression := whenExpr;
     whenSize := whenSize p; whenOffset := whenOffset p;
     actionIcon := actionIcon p;
     actionIconClassName := actionIconClassName p;
     onActionIconClick := onActionIconClick p; selected := selected p;
     onSelect := onSelect p; onContextMenu := onContextMenu p;
     contextMenuOpen := contextMenuOpen p |}.

(** The same hook state with another hover flag. *)
Definition with_hovered (b : bool) (h : HookState) : HookState :=
  {| hovered := b; textSize := textSize h; statusSize := statusSize h;
     leadSize := leadSize h; badgeSize := badgeSize h;
     actionSize := actionSize h; contextSize := contextSize h;
     nodeScale := nodeScale h |}.


(** The same element with other source edges. *)
Definition with_sourceEdges (edges : list Edge) (e : GraphElement)
  : GraphElement :=
  {| elementId := elementId e; getBounds := getBounds e;
     getLabel := getLabel e; getDetailsLevel := getDetailsLevel e;
     getScale := getScale e; getSourceEdges := edges |}.

(** ** Further concrete inputs *)

(** A task with every optional sub-element: status, lead icon, task
    icon with a tooltip, badge, action icon, context menu and a node
    tooltip. *)
Definition full_props : TaskNodeProps :=
  let b := bare_props sample_node in
  {| children := children b; className := className b;
     element := sample_node;
     paddingX := paddingX b; paddingY := paddingY b;
     nameLabelClass := nameLabelClass b;
     status := Some Succeeded; statusIconSize := statusIconSize b;
     showStatusState := showStatusState b; scaleNode := scaleNode b;
     hideDetailsAtMedium := hideDetailsAtMedium b;
     hiddenDetailsShownStatuses := hiddenDetailsShownStatuses b;
     leadIcon := Some (External "lead-icon");
     badge := Some "3"; badgeColor := badgeColor b;
     badgeTextColor := badgeTextColor b;
     badgeBorderColor := badgeBorderColor b;
     badgeClassName := badgeClassName b;
     badgePopoverProps := badgePopoverProps b;
     badgeTooltip := Some (External "badge-tip");
     badgePopoverParams := badgePopoverParams b;
     taskIconClass := Some "pf-icon-build"; taskIcon := taskIcon b;
     taskIconTooltip := Some (External "icon-tip");
     taskIconPadding := taskIconPadding b; hover := hover b;
     truncateLength := truncateLength b;
     disableTooltip := Some true;
     toolTip := Some (External "node-tip");
     toolTipProps := toolTipProps b;
     hasWhenExpression := hasWhenExpression b;
     whenSize := Some #12; whenOffset := Some #6;
     actionIcon := Some (External "action-icon");
     actionIconClassName := actionIconClassName b;
     onActionIconClick := onActionIconClick b; selected := selected b;
     onSelect := onSelect b;
     onContextMenu := Some (opaque "openMenu");
     contextMenuOpen := contextMenuOpen b |}.

(** The hooks after every sub-element has been measured. *)
Definition full_hooks : HookState :=
  {| hovered := true;
     textSize := Some (mkSize #50 #16);
     statusSize := Some (mkSize #16 #16);
     leadSize := Some (mkSize #12 #12);
     badgeSize := Some (mkSize #20 #14);
     actionSize := Some (mkSize #18 #32);
     contextSize := Some (mkSize #10 #32);
     nodeScale := 1 |}.

(** The running task after the effect has run for a pill of width 136. *)
Definition after_effect_props : TaskNodeProps :=
  task_props (with_sourceEdges (sourceEdgesEffect sample_props #136)
                               sample_node)
             (Some Running) None None None None None IsUndefined None.

(** * Theorems *)

(** ** Arithmetic on [number] *)

(** Goals about the order of [Qc] are sent to [Q], where [lra] decides
    them; the only divisions of the layout are by literals. *)
Ltac qc_to_Q :=
  unfold Qcle, Qclt, Qcminus, Qcdiv, Qcplus, Qcopp, Qcmult, Qcinv, Q2Qc,
    Qc_of_Z in *;
  cbn [this] in *; unfold inject_Z in *; rewrite ?Qred_correct in *;
  cbn [Qinv Qnum Qden] in *.

Ltac qc_lra := qc_to_Q; lra.

Lemma Qc_le_add_nonneg (a b : number) : 0 <= b -> a <= a + b.
Proof. intros Hb. qc_lra. Qed.

Lemma Qc_le_add_two_nonneg (a b c : number) :
  0 <= b -> 0 <= c -> a <= a + b + c.
Proof. intros Hb Hc. qc_lra. Qed.

Lemma Qc_quarter_below (a b : number) : 0 <= b -> a - b / #4 <= a.
Proof. intros Hb. qc_lra. Qed.

Lemma Qc_sum_nonneg (a b : number) : 0 <= a -> 0 <= b -> 0 <= a + b.
Proof. intros Ha Hb. qc_lra. Qed.

Lemma Qc_half_nonneg (a : number) : 0 <= a -> 0 <= a / #2.
Proof. intros Ha. qc_lra. Qed.

(** ** Facts about the layout pass *)

Lemma guarded_width (cond : bool) (size : option Size) (pad : number) :
  (if cond && truthy size
   then w ← get_width size; mret (w + pad)
   else mret 0) = Ok (guarded_space cond size pad).
Proof. destruct cond, size; reflexivity. Qed.

Lemma layout_measured (p : TaskNodeProps) (h : HookState) :
  is_Some (textSize h) ->
  layout p h = (lead ← lead_space p h (default #8 (paddingX p));
                mret (chain_layout p h lead)).
Proof.
  intros [ts Hts]. unfold layout, lead_space, chain_layout, status_shown.
  rewrite Hts. cbn [truthy negb].
  rewrite !guarded_width. cbn [mbind Result_bind].
  destruct (truthy_node (leadIcon p)); [destruct (leadSize h)|]; reflexivity.
Qed.

Lemma layout_unmeasured (p : TaskNodeProps) (h : HookState) :
  textSize h = None -> layout p h = Ok Layout.zero.
Proof. intros Hts. unfold layout. rewrite Hts. reflexivity. Qed.

(** X2: the layout pass returns exactly when it does not read the width
    of an unmeasured lead icon. *)
Lemma layout_returns_iff (p : TaskNodeProps) (h : HookState) :
  (exists l, layout p h = Ok l) <->
  (textSize h = None \/ truthy_node (leadIcon p) = false
   \/ is_Some (leadSize h)).
Proof.
  destruct (textSize h) as [ts|] eqn:Hts.
  - rewrite layout_measured by (rewrite Hts; eauto). unfold lead_space.
    destruct (truthy_node (leadIcon p)), (leadSize h) as [ls|];
      cbn; split; try (intros _; eauto; fail).
    + intros [l Hl]. discriminate.
    + intros [H|[H|[x H]]]; discriminate.
  - rewrite layout_unmeasured by assumption. split; eauto.
Qed.

Lemma layout_throws (p : TaskNodeProps) (h : HookState) :
  is_Some (textSize h) -> truthy_node (leadIcon p) = true ->
  leadSize h = None ->
  layout p h =
  Throw (TypeError "Cannot read properties of undefined (reading 'width')").
Proof.
  intros Hts Hicon Hls. rewrite layout_measured by assumption.
  unfold lead_space. rewrite Hicon, Hls. reflexivity.
Qed.

(** X1: the additive chain of offsets, for every render whose label is
    measured and whose lead icon, when there is one, is measured too. *)
Lemma layout_additive_chain (p : TaskNodeProps) (h : HookState) :
  is_Some (textSize h) ->
  (truthy_node (leadIcon p) = true -> is_Some (leadSize h)) ->
  exists l,
    layout p h = Ok l /\
    let padX := default #8 (paddingX p) in
    Layout.leadIconStartX l
    = padX + padX / #2
      + guarded_space (status_shown p) (statusSize h) padX /\
    Layout.textStartX l
    = Layout.leadIconStartX l
      + (if truthy_node (leadIcon p)
         then width_or_0 (leadSize h) + padX else 0) /\
    Layout.badgeStartX l
    = Layout.textStartX l + (width_or_0 (textSize h) + padX) /\
    Layout.actionStartX l
    = Layout.badgeStartX l
      + guarded_space (truthy_str (badge p)) (badgeSize h) padX /\
    Layout.contextStartX l
    = Layout.actionStartX l
      + guarded_space (truthy_node (actionIcon p)) (actionSize h) padX /\
    Layout.pillWidth l
    = Layout.contextStartX l
      + guarded_space (truthy (onContextMenu p)) (contextSize h) (padX / #2)
      + padX / #2 /\
    Layout.height l
    = height_or_0 (textSize h) + #2 * default #8 (paddingY p).
Proof.
  intros Hts Hlead. rewrite layout_measured by assumption.
  unfold lead_space.
  destruct (truthy_node (leadIcon p)) eqn:Hicon.
  - destruct (Hlead eq_refl) as [ls Hls]. rewrite Hls. cbn.
    eexists. split; [reflexivity|]. cbn. repeat split; reflexivity.
  - cbn. eexists. split; [reflexivity|]. cbn. repeat split; reflexivity.
Qed.

Lemma layout_additive_chain_witness :
  exists l,
    layout sample_props measured_hooks = Ok l /\
    Layout.pillWidth l
    = Layout.contextStartX l
      + guarded_space (truthy (onContextMenu sample_props))
          (contextSize measured_hooks) (#8 / #2)
      + #8 / #2.
Proof.
  destruct (layout_additive_chain sample_props measured_hooks)
    as (l & Hl & _ & _ & _ & _ & _ & Hpill & _).
  - eexists; reflexivity.
  - discriminate.
  - exists l. split; [exact Hl|exact Hpill].
Defined.

(** C10: before the label has been measured every layout output is 0,
    and the pill drawn from that layout is a rectangle of width 0 and
    height 0. *)
Theorem unmeasured_layout_is_zero `{Imports} (p : TaskNodeProps)
    (h : HookState) :
  textSize h = None ->
  exists l,
    layout p h = Ok l /\
    Layout.height l = 0 /\ Layout.statusStartX l = 0 /\
    Layout.textStartX l = 0 /\ Layout.actionStartX l = 0 /\
    Layout.contextStartX l = 0 /\ Layout.pillWidth l = 0 /\
    Layout.badgeStartX l = 0 /\ Layout.iconWidth l = 0 /\
    Layout.iconStartX l = 0 /\ Layout.leadIconStartX l = 0 /\
    useLayout None p h = Ok (l, Some (layoutDeps p h, l)) /\
    exists attrs rest others,
      pill p h l
      = El g attrs
          (El NodeShadows [] []
           :: El rect (("x", VNum 0) :: ("y", VNum 0)
                       :: ("width", VNum 0) :: ("height", VNum 0) :: rest) []
           :: others).
Proof.
  intros Hts. exists Layout.zero.
  pose proof (layout_unmeasured p h Hts) as Hl.
  split; [exact Hl|]. do 10 (split; [reflexivity|]).
  split.
  - unfold useLayout, useMemo. rewrite Hl. reflexivity.
  - unfold pill. do 3 eexists. reflexivity.
Qed.

Lemma unmeasured_layout_is_zero_witness :
  exists l,
    layout sample_props unmeasured_hooks = Ok l /\ Layout.pillWidth l = 0.
Proof.
  destruct (unmeasured_layout_is_zero sample_props unmeasured_hooks eq_refl)
    as (l & Hl & _ & _ & _ & _ & _ & Hw & _).
  exists l. split; assumption.
Defined.

(** C1: a render whose label is measured reads [leadSize.width] as soon
    as a lead icon is set; when that icon has not been measured yet (it
    was added after the first measurement) the layout pass throws, the
    render is aborted, and no offset is computed. *)
Theorem layout_throws_on_unmeasured_lead_icon :
  let cell := Some (layoutDeps sample_props measured_hooks,
                    chain_layout sample_props measured_hooks 0) in
  let thrown :=
    TypeError "Cannot read properties of undefined (reading 'width')" in
  is_Some (textSize measured_hooks) /\
  truthy_node (leadIcon lead_icon_props) = true /\
  leadSize measured_hooks = None /\
  useLayout None sample_props measured_hooks
  = Ok (chain_layout sample_props measured_hooks 0, cell) /\
  layout lead_icon_props measured_hooks = Throw thrown /\
  TaskNodeInner lead_icon_props measured_hooks cell = Throw thrown.
Proof.
  cbn zeta.
  split; [eexists; reflexivity|]. split; [reflexivity|].
  split; [reflexivity|]. split; [|split; [reflexivity|]].
  - unfold useLayout, useMemo.
    rewrite layout_measured by (eexists; reflexivity). reflexivity.
  - unfold TaskNodeInner, useLayout, useMemo.
    cbn [same_deps sample_imports].
    rewrite bool_decide_eq_false_2.
    + reflexivity.
    + intros Heq. apply (f_equal Deps.leadIcon) in Heq. discriminate Heq.
Qed.

Lemma guarded_space_nonneg (cond : bool) (size : option Size) (pad : number) :
  (forall sz, size = Some sz -> 0 <= width sz) -> 0 <= pad ->
  0 <= guarded_space cond size pad.
Proof.
  intros Hw Hpad. unfold guarded_space.
  destruct size as [sz|]; [|apply Qcle_refl].
  destruct cond; [|apply Qcle_refl].
  apply Qc_sum_nonneg; [apply Hw; reflexivity|assumption].
Qed.

Lemma measured_width_nonneg (h : HookState) (size : option Size) :
  measured_widths_nonneg h ->
  In size [textSize h; statusSize h; leadSize h; badgeSize h;
           actionSize h; contextSize h] ->
  forall sz, size = Some sz -> 0 <= width sz.
Proof. intros Hall Hin sz ->. apply Hall. exact Hin. Qed.

Lemma chain_layout_monotone (p : TaskNodeProps) (h : HookState)
    (lead : number) :
  0 <= default #8 (paddingX p) ->
  0 <= default STATUS_ICON_SIZE (statusIconSize p) ->
  measured_widths_nonneg h ->
  0 <= lead ->
  let l := chain_layout p h lead in
  Layout.statusStartX l <= Layout.leadIconStartX l /\
  Layout.leadIconStartX l <= Layout.textStartX l /\
  Layout.textStartX l <= Layout.badgeStartX l /\
  Layout.badgeStartX l <= Layout.actionStartX l /\
  Layout.actionStartX l <= Layout.contextStartX l /\
  Layout.contextStartX l <= Layout.pillWidth l.
Proof.
  intros HpadX Hicon Hw Hlead. cbn.
  assert (Hhalf : 0 <= default #8 (paddingX p) / #2)
    by (apply Qc_half_nonneg; assumption).
  assert (Htext : 0 <= width_or_0 (textSize h)).
  { destruct (textSize h) as [ts|] eqn:Hts; [|apply Qcle_refl].
    apply Hw. rewrite <- Hts. cbn. tauto. }
  assert (Hin : forall size,
             In size [statusSize h; badgeSize h; actionSize h; contextSize h]
             -> forall sz, size = Some sz -> 0 <= width sz).
  { intros size Hin. apply (measured_width_nonneg h size Hw).
    cbn in *. tauto. }
  pose proof (guarded_space_nonneg (status_shown p) (statusSize h) _
                (Hin (statusSize h) ltac:(cbn; tauto)) HpadX) as Hs.
  pose proof (guarded_space_nonneg (truthy_str (badge p)) (badgeSize h) _
                (Hin (badgeSize h) ltac:(cbn; tauto)) HpadX) as Hb.
  pose proof (guarded_space_nonneg (truthy_node (actionIcon p)) (actionSize h)
                _ (Hin (actionSize h) ltac:(cbn; tauto)) HpadX) as Ha.
  pose proof (guarded_space_nonneg (truthy (onContextMenu p)) (contextSize h)
                _ (Hin (contextSize h) ltac:(cbn; tauto)) Hhalf) as Hc.
  repeat split.
  - eapply Qcle_trans; [apply Qc_quarter_below; assumption|].
    apply Qc_le_add_nonneg; assumption.
  - apply Qc_le_add_nonneg; assumption.
  - apply Qc_le_add_nonneg, Qc_sum_nonneg; assumption.
  - apply Qc_le_add_nonneg; assumption.
  - apply Qc_le_add_nonneg; assumption.
  - apply Qc_le_add_two_nonneg; assumption.
Qed.

(** C2: with non-negative paddings, status icon size and measured
    widths, the offsets computed for a render whose label is measured
    increase from left to right. *)
Theorem layout_offsets_monotone (p : TaskNodeProps) (h : HookState)
    (l : Layout.t) :
  is_Some (textSize h) ->
  0 <= default #8 (paddingX p) ->
  0 <= default #8 (paddingY p) ->
  0 <= default STATUS_ICON_SIZE (statusIconSize p) ->
  measured_widths_nonneg h ->
  layout p h = Ok l ->
  Layout.statusStartX l <= Layout.leadIconStartX l /\
  Layout.leadIconStartX l <= Layout.textStartX l /\
  Layout.textStartX l <= Layout.badgeStartX l /\
  Layout.badgeStartX l <= Layout.actionStartX l /\
  Layout.actionStartX l <= Layout.contextStartX l /\
  Layout.contextStartX l <= Layout.pillWidth l.
Proof.
  intros Hts HpadX _ Hicon Hw Hl.
  rewrite layout_measured in Hl by assumption. unfold lead_space in Hl.
  destruct (truthy_node (leadIcon p)).
  - destruct (leadSize h) as [ls|] eqn:Hls; [|discriminate Hl].
    cbn in Hl. injection Hl as <-.
    apply chain_layout_monotone; try assumption.
    apply Qc_sum_nonneg; [|assumption].
    apply Hw. rewrite <- Hls. cbn. tauto.
  - cbn in Hl. injection Hl as <-.
    apply chain_layout_monotone; try assumption. apply Qcle_refl.
Qed.

Lemma sample_widths_nonneg : measured_widths_nonneg measured_hooks.
Proof.
  intros sz Hin. cbn in Hin.
  repeat (destruct Hin as [Heq|Hin];
          [try discriminate Heq; injection Heq as <-; now vm_compute|]).
  destruct Hin.
Qed.

Lemma sample_layout :
  layout sample_props measured_hooks
  = Ok (chain_layout sample_props measured_hooks 0).
Proof. rewrite layout_measured by (eexists; reflexivity). reflexivity. Qed.

Lemma layout_offsets_monotone_witness :
  let l := chain_layout sample_props measured_hooks 0 in
  Layout.statusStartX l <= Layout.leadIconStartX l /\
  Layout.leadIconStartX l <= Layout.textStartX l /\
  Layout.textStartX l <= Layout.badgeStartX l /\
  Layout.badgeStartX l <= Layout.actionStartX l /\
  Layout.actionStartX l <= Layout.contextStartX l /\
  Layout.contextStartX l <= Layout.pillWidth l.
Proof.
  apply (layout_offsets_monotone sample_props measured_hooks).
  - eexists; reflexivity.
  - now vm_compute.
  - now vm_compute.
  - now vm_compute.
  - exact sample_widths_nonneg.
  - exact sample_layout.
Defined.

(** ** The memo cell is transparent *)

(** The layout callback reads nothing but its dependency array. *)
Lemma layout_reads_deps (p p' : TaskNodeProps) (h h' : HookState) :
  layoutDeps p h = layoutDeps p' h' -> layout p h = layout p' h'.
Proof.
  intros Heq. unfold layoutDeps in Heq.
  injection Heq as Hts _ _ HpY HpX Hcls Hicon Hpad Hsis Hst Hshow Hls Hlead
    Hss Hbs Hb Ha Has Hctx Hcs.
  unfold layout.
  rewrite Hts, HpY, HpX, Hcls, Hicon, Hpad, Hsis, Hst, Hshow, Hls, Hlead,
    Hss, Hbs, Hb, Ha, Has, Hctx, Hcs.
  reflexivity.
Qed.

(** A reachable cell holds the layout of its dependencies. *)
Lemma reachable_cell_sound `{Imports} (cell : MemoCell) :
  reachable cell ->
  forall d v, cell = Some (d, v) ->
  forall p h, layoutDeps p h = d -> layout p h = Ok v.
Proof.
  induction 1 as [|cell p0 h0 l cell' Hreach IH Hstep];
    intros d v Hcell p h Hdeps; [discriminate Hcell|].
  unfold useLayout, useMemo in Hstep.
  assert (Hcompute :
            (v0 ← layout p0 h0; mret (v0, Some (layoutDeps p0 h0, v0)))
            = Ok (l, cell') -> layout p h = Ok v).
  { destruct (layout p0 h0) as [v0|e] eqn:Hl0; cbn; [|discriminate].
    intros Hok. injection Hok as <- <-. injection Hcell as <- <-.
    rewrite (layout_reads_deps p p0 h h0 Hdeps). exact Hl0. }
  destruct cell as [[prev v0]|]; [|exact (Hcompute Hstep)].
  destruct (same_deps prev (layoutDeps p0 h0)); [|exact (Hcompute Hstep)].
  cbn in Hstep. injection Hstep as <- <-.
  exact (IH d v Hcell p h Hdeps).
Qed.

(** Whatever the cell holds, a render gets the layout of its own
    inputs. *)
Lemma useLayout_transparent `{Imports} (cell : MemoCell)
    (p : TaskNodeProps) (h : HookState) :
  reachable cell -> fst <$> useLayout cell p h = layout p h.
Proof.
  intros Hreach. unfold useLayout, useMemo.
  assert (Hcompute :
            fst <$> (v ← layout p h; mret (v, Some (layoutDeps p h, v)))
            = layout p h)
    by (destruct (layout p h); reflexivity).
  destruct cell as [[prev v]|]; [|exact Hcompute].
  destruct (same_deps prev (layoutDeps p h)) eqn:Hsame; [|exact Hcompute].
  cbn. symmetry.
  apply (reachable_cell_sound _ Hreach prev v eq_refl).
  symmetry. apply same_deps_eq. exact Hsame.
Qed.

(** The layout callback depends on the presence of the optional props,
    not on their values. *)
Lemma layout_same_inputs (p1 p2 : TaskNodeProps) (h1 h2 : HookState) :
  same_layout_inputs p1 h1 p2 h2 -> layout p1 h1 = layout p2 h2.
Proof.
  intros [Hts Hss Hls Hbs Has Hcs HpX HpY Hsis Hpad Hst Hshow Hlead Hb Hicon
            Ha Hctx].
  unfold layout.
  rewrite Hts, Hss, Hls, Hbs, Has, Hcs, HpX, HpY, Hsis, Hpad, Hst, Hshow,
    Hlead, Hb, Hicon, Ha, Hctx.
  reflexivity.
Qed.

(** C7: two renders with equal measured sizes, equal paddings and icon
    sizes and equal presence flags get the same outcome from the
    memoised layout pass, whatever their memo cells hold: the same
    height, offsets, icon width and pill width, or the same exception. *)
Theorem memoised_layout_deterministic `{Imports} (cell1 cell2 : MemoCell)
    (p1 p2 : TaskNodeProps) (h1 h2 : HookState) :
  reachable cell1 -> reachable cell2 ->
  same_layout_inputs p1 h1 p2 h2 ->
  fst <$> useLayout cell1 p1 h1 = fst <$> useLayout cell2 p2 h2.
Proof.
  intros Hr1 Hr2 Hsame.
  rewrite !useLayout_transparent by assumption.
  apply layout_same_inputs. exact Hsame.
Qed.

(** ** Rendering *)

Lemma hiddenStatusShown_iff (p : TaskNodeProps) :
  hiddenStatusShown p = true <->
  is_Some (status p) /\
  (hiddenDetailsShownStatuses p = IsNull
   \/ status_in_shown_statuses p = true).
Proof.
  unfold hiddenStatusShown, status_in_shown_statuses.
  destruct (status p) as [s|].
  - destruct (hiddenDetailsShownStatuses p) as [| |shown]; cbn.
    + split; [intros Hin; split; [eauto|right; exact Hin]|].
      intros [_ [Hnull|Hin]]; [discriminate Hnull|exact Hin].
    + split; [intros _; split; [eauto|left; reflexivity]|reflexivity].
    + split; [intros Hin; split; [eauto|right; exact Hin]|].
      intros [_ [Hnull|Hin]]; [discriminate Hnull|exact Hin].
  - split; [discriminate|]. intros [[s Hs] _]. discriminate Hs.
Qed.

Lemma detailsHidden_iff (p : TaskNodeProps) :
  detailsHidden p = true <->
  default true (showStatusState p) = true /\
  truthy_flag (scaleNode p) = false /\
  truthy_flag (hideDetailsAtMedium p) = true /\
  getDetailsLevel (element p) <> high.
Proof.
  unfold detailsHidden.
  rewrite !andb_true_iff, !negb_true_iff, bool_decide_eq_false. tauto.
Qed.

Lemma statusDot_not_pill `{Imports} (p : TaskNodeProps) (h : HookState)
    (l : Layout.t) :
  statusDot p <> pill p h l.
Proof. unfold statusDot, pill. intros Heq. discriminate Heq. Qed.

(** C3, as the code has it: [renderTask] returns the status dot exactly
    when showStatusState is true, scaleNode is not set,
    hideDetailsAtMedium is true and the details level is not high, and
    the pill otherwise; the dot is a circle scaled by 1/scale; it
    carries the status icon exactly when a status is set and the list of
    shown statuses is null or contains it. *)
Theorem renderTask_collapses_to_status_dot `{Imports} (p : TaskNodeProps)
    (h : HookState) (l : Layout.t) :
  (renderTask p h l = statusDot p <->
   default true (showStatusState p) = true /\
   truthy_flag (scaleNode p) = false /\
   truthy_flag (hideDetailsAtMedium p) = true /\
   getDetailsLevel (element p) <> high) /\
  (renderTask p h l = pill p h l <->
   ~ (default true (showStatusState p) = true /\
      truthy_flag (scaleNode p) = false /\
      truthy_flag (hideDetailsAtMedium p) = true /\
      getDetailsLevel (element p) <> high)) /\
  (exists y attrs icon,
     statusDot p
     = El g [("transform",
              VTransform [translate 0 y; scale (1 / getScale (element p))]);
             ("ref", VRef taskRef)]
          [El circle attrs []; icon]) /\
  (contains_tag StatusIcon (statusDot p) = true <->
   is_Some (status p) /\
   (hiddenDetailsShownStatuses p = IsNull
    \/ status_in_shown_statuses p = true)).
Proof.
  pose proof (statusDot_not_pill p h l) as Hne.
  split; [|split; [|split]].
  - rewrite <- detailsHidden_iff. unfold renderTask.
    destruct (detailsHidden p); split; try reflexivity; try discriminate;
      intros Heq; symmetry in Heq; contradiction.
  - rewrite <- detailsHidden_iff. unfold renderTask.
    destruct (detailsHidden p); split.
    + intros Heq. contradiction.
    + intros Hno. contradiction Hno. reflexivity.
    + intros _. discriminate.
    + reflexivity.
  - unfold statusDot. do 3 eexists. reflexivity.
  - rewrite <- hiddenStatusShown_iff. unfold statusDot.
    destruct (hiddenStatusShown p); cbn; split; (reflexivity || discriminate).
Qed.

(** C3, counterexample: drawn collapsed with the list of shown statuses
    set to null, a running task carries its status icon although
    Running is a member of no list. *)
Lemma null_shown_statuses_draw_any_status :
  renderTask collapsed_null_props measured_hooks Layout.zero
  = statusDot collapsed_null_props /\
  contains_tag StatusIcon
    (renderTask collapsed_null_props measured_hooks Layout.zero) = true /\
  status collapsed_null_props = Some Running /\
  status_in_shown_statuses collapsed_null_props = false.
Proof. repeat split. Qed.

Lemma css_classes_keeps (args : list (option string)) (cls : string) :
  In (Some cls) args -> truthy_str (Some cls) = true ->
  In cls (css_classes args).
Proof.
  intros Hin Hcls. unfold css_classes.
  induction args as [|a args IH]; [destruct Hin|].
  destruct Hin as [->|Hin]; cbn [omap list_omap].
  - rewrite Hcls. left. reflexivity.
  - destruct (truthy_str a); [destruct a|]; cbn [In]; auto.
Qed.

(** C5: whatever class [css] makes of the run status modifier is among
    the classes of the pill, with or without hover, selection and an
    extra class name; the background's filter is the danger shadow when
    the modifier is the danger modifier, the hover shadow when the node
    is hovered and the modifier is not one of nonShadowModifiers, and
    absent otherwise. *)
Theorem run_status_styles_pill `{Imports} (p : TaskNodeProps)
    (h : HookState) (l : Layout.t) :
  let modifier := getRunStatusModifier (status p) in
  incl (css_classes [Some modifier]) (css_classes (pillClassArgs p h)) /\
  (exists attrs geometry rest,
     pill p h l
     = El g (("className", VStr (css (pillClassArgs p h))) :: attrs)
         (El NodeShadows [] []
          :: El rect (geometry ++ [("filter", VOptStr (filter p h))]) []
          :: rest)) /\
  (modifier = modifiers_danger styles ->
   filter p h = Some (createSvgIdUrl NODE_SHADOW_FILTER_ID_DANGER)) /\
  (modifier <> modifiers_danger styles ->
   isHover p h = true ->
   includes_str nonShadowModifiers modifier = false ->
   filter p h = Some (createSvgIdUrl NODE_SHADOW_FILTER_ID_HOVER)) /\
  (modifier <> modifiers_danger styles ->
   isHover p h = false \/ includes_str nonShadowModifiers modifier = true ->
   filter p h = None).
Proof.
  cbn zeta. split; [|split; [|split; [|split]]].
  - intros cls Hin. unfold css_classes in Hin.
    cbn [omap list_omap] in Hin.
    destruct (truthy_str (Some (getRunStatusModifier (status p)))) eqn:Hm;
      cbn in Hin; [|destruct Hin].
    destruct Hin as [<-|[]].
    apply css_classes_keeps; [|exact Hm].
    unfold pillClassArgs, runStatusModifier. cbn. tauto.
  - unfold pill, pillClasses.
    eexists _, [_; _; _; _; _; _], _. reflexivity.
  - intros Hm. unfold filter, runStatusModifier. rewrite Hm.
    rewrite String.eqb_refl. reflexivity.
  - intros Hm Hhover Hshadow. unfold filter, runStatusModifier.
    apply String.eqb_neq in Hm. rewrite Hm, Hhover, Hshadow. reflexivity.
  - intros Hm Hor. unfold filter, runStatusModifier.
    apply String.eqb_neq in Hm. rewrite Hm.
    destruct Hor as [-> | ->]; [reflexivity|].
    rewrite andb_false_r. reflexivity.
Qed.

(** C6: the label text is truncateMiddle of the element's label with
    length truncateLength (14 unless given) and omission '...'; in the
    pill a tooltip holding the full label wraps the label text exactly
    when the truncated label differs from the full one and
    disableTooltip is false. *)
Theorem label_is_truncated_with_tooltip `{Imports} (p : TaskNodeProps)
    (h : HookState) (l : Layout.t) :
  let full := getLabel (element p) in
  let shown := truncateMiddle full (default #14 (truncateLength p)) "..." in
  (exists attrs, nameLabel p = El text attrs [TextLit shown]) /\
  (exists attrs a b rest,
     pill p h l = El g attrs (a :: b :: labelGroup p h l :: rest)) /\
  (contains_tag Tooltip (labelGroup p h l) = true <->
   shown <> full /\ default false (disableTooltip p) = false) /\
  (shown <> full /\ default false (disableTooltip p) = false ->
   exists attrs,
     labelGroup p h l
     = El g attrs
         [El Tooltip
            [("triggerRef", VRef nameLabelTriggerRef);
             ("content", VStr full)]
            [El g [] [nameLabel p]]]) /\
  (~ (shown <> full /\ default false (disableTooltip p) = false) ->
   exists attrs, labelGroup p h l = El g attrs [nameLabel p]).
Proof.
  cbn zeta.
  assert (Hcond :
            negb (String.eqb (getLabel (element p)) (label p))
            && negb (default false (disableTooltip p)) = true
            <-> truncateMiddle (getLabel (element p))
                  (default #14 (truncateLength p)) "..."
                <> getLabel (element p)
                /\ default false (disableTooltip p) = false).
  { rewrite andb_true_iff, !negb_true_iff, String.eqb_neq. unfold label.
    split; intros [Hne Hdis]; (split; [congruence|exact Hdis]). }
  split; [|split; [|split; [|split]]].
  - unfold nameLabel, label. eexists. reflexivity.
  - unfold pill. do 4 eexists. reflexivity.
  - rewrite <- Hcond. unfold labelGroup.
    destruct (negb (String.eqb (getLabel (element p)) (label p))
              && negb (default false (disableTooltip p)));
      cbn; split; (reflexivity || discriminate).
  - intros Hyes. apply Hcond in Hyes. unfold labelGroup. rewrite Hyes.
    eexists. reflexivity.
  - intros Hno. rewrite <- Hcond in Hno. apply not_true_is_false in Hno.
    unfold labelGroup. rewrite Hno. eexists. reflexivity.
Qed.

(** C8: TaskNode throws the error 'TaskNode must be used only on Node
    elements' exactly when its element does not satisfy isNode, and
    throws nothing else; for a node it returns the TaskNodeInner element
    with the defaults filled in. *)
Theorem TaskNode_requires_node `{Imports} (p : TaskNodeProps) :
  (TaskNode p = Throw (Error "TaskNode must be used only on Node elements")
   <-> isNode (element p) = false) /\
  (forall e, TaskNode p = Throw e ->
             e = Error "TaskNode must be used only on Node elements") /\
  (TaskNode p = Ok (TaskNodeInnerElement (innerProps p))
   <-> isNode (element p) = true).
Proof.
  unfold TaskNode. destruct (isNode (element p)); cbn; repeat split;
    try discriminate; try reflexivity.
  - intros e He. injection He as <-. reflexivity.
Qed.

(** C9: with a badge set, a badge tooltip wraps the badge label in a
    Tooltip and no Popover is drawn, even when popover parameters are
    given too; a Popover wraps the label only when there is no badge
    tooltip and there are popover parameters; with neither the bare
    label is drawn; with no badge nothing is drawn. *)
Theorem badge_tooltip_precedes_popover `{Imports} (p : TaskNodeProps)
    (h : HookState) (l : Layout.t) :
  (badgeLabel p h l = None <-> truthy_str (badge p) = false) /\
  (badgeLabel p h l = None -> badgeComponent p h l = Null) /\
  (forall bl, badgeLabel p h l = Some bl ->
     (exists attrs, bl = El LabelBadge attrs []) /\
     (truthy_node (badgeTooltip p) = true ->
      badgeComponent p h l
      = El Tooltip [("triggerRef", VRef badgeLabelTriggerRef);
                    ("content", VOptNode (badgeTooltip p))] [bl]) /\
     (truthy_node (badgeTooltip p) = false ->
      truthy (badgePopoverParams p) = true ->
      exists attrs,
        badgeComponent p h l
        = El g attrs
            [El Popover [("triggerRef", VRef badgeLabelTriggerRef);
                         ("...", VSpread (badgePopoverParams p))] [bl]]) /\
     (truthy_node (badgeTooltip p) = false ->
      truthy (badgePopoverParams p) = false ->
      badgeComponent p h l = bl)) /\
  (contains_tag Tooltip (badgeComponent p h l) = true <->
   truthy_str (badge p) = true /\ truthy_node (badgeTooltip p) = true) /\
  (contains_tag Popover (badgeComponent p h l) = true <->
   truthy_str (badge p) = true /\ truthy_node (badgeTooltip p) = false
   /\ truthy (badgePopoverParams p) = true).
Proof.
  unfold badgeComponent, badgeLabel.
  destruct (truthy_str (badge p)); cbn.
  - split; [split; discriminate|]. split; [discriminate|].
    split.
    + intros bl Hbl. injection Hbl as <-.
      split; [eexists; reflexivity|].
      split; [intros ->; reflexivity|].
      split; [intros -> ->; eexists; reflexivity|].
      intros -> ->. reflexivity.
    + destruct (truthy_node (badgeTooltip p));
        destruct (truthy (badgePopoverParams p)); cbn;
        repeat split; intros; try discriminate; try reflexivity;
        intuition discriminate.
  - split; [split; reflexivity|]. split; [reflexivity|].
    split; [intros bl Hbl; discriminate Hbl|].
    split; split; intros; try discriminate; intuition discriminate.
Qed.

(** C4: the effect gives every source edge of the node a data object
    that is its previous data (the empty object when it had none) with
    the indent field set to width - pillWidth at the high details level
    and to 0 otherwise; every other field, and the edge's identity and
    position in the list, are unchanged. *)
Theorem source_edges_get_indent (p : TaskNodeProps) (pillWidth : number) :
  let indent :=
    if bool_decide (getDetailsLevel (element p) = high)
    then width (getBounds (element p)) - pillWidth else 0 in
  length (sourceEdgesEffect p pillWidth)
  = length (getSourceEdges (element p)) /\
  forall (i : nat) (edge : Edge),
    getSourceEdges (element p) !! i = Some edge ->
    exists edge' data',
      sourceEdgesEffect p pillWidth !! i = Some edge' /\
      edgeId edge' = edgeId edge /\
      getData edge' = Some data' /\
      data' !! "indent" = Some (JNum indent) /\
      forall k : string,
        k <> "indent" -> data' !! k = default ∅ (getData edge) !! k.
Proof.
  cbn zeta. unfold sourceEdgesEffect. split; [apply length_map|].
  intros i edge Hi. rewrite list_lookup_fmap, Hi. cbn.
  eexists _, _. split; [reflexivity|]. split; [reflexivity|].
  split; [reflexivity|]. split.
  - apply lookup_insert_eq.
  - intros k Hk. apply lookup_insert_ne. congruence.
Qed.

(** ** The theorems at concrete inputs *)

Lemma sample_cell_reachable :
  reachable (Some (layoutDeps sample_props measured_hooks,
                   chain_layout sample_props measured_hooks 0)).
Proof.
  apply (reachable_render None sample_props measured_hooks
           (chain_layout sample_props measured_hooks 0)).
  - apply reachable_init.
  - unfold useLayout, useMemo. rewrite sample_layout. reflexivity.
Qed.

Lemma memoised_layout_deterministic_witness :
  fst <$> useLayout None sample_props measured_hooks
  = fst <$> useLayout
              (Some (layoutDeps sample_props measured_hooks,
                     chain_layout sample_props measured_hooks 0))
              hovered_failed_props measured_hooks.
Proof.
  apply memoised_layout_deterministic.
  - apply reachable_init.
  - apply sample_cell_reachable.
  - constructor; reflexivity.
Defined.

Lemma source_edges_get_indent_witness :
  exists edge' data',
    sourceEdgesEffect sample_props #136 !! 0%nat = Some edge' /\
    edgeId edge' = "e1" /\
    getData edge' = Some data' /\
    data' !! "indent" = Some (JNum (#180 - #136)) /\
    forall k : string,
      k <> "indent" ->
      data' !! k = default ∅ (getData sample_edge) !! k.
Proof.
  exact (proj2 (source_edges_get_indent sample_props #136) 0%nat sample_edge
               eq_refl).
Defined.

Lemma run_status_styles_pill_witness :
  filter hovered_failed_props measured_hooks
  = Some "url(#NodeShadowsFilterId--danger)".
Proof.
  exact (proj1 (proj2 (proj2 (run_status_styles_pill hovered_failed_props
                                measured_hooks Layout.zero)))
               eq_refl).
Defined.

Lemma label_is_truncated_with_tooltip_witness :
  exists attrs,
    labelGroup sample_props measured_hooks Layout.zero
    = El g attrs
        [El Tooltip
           [("triggerRef", VRef nameLabelTriggerRef);
            ("content", VStr "build-and-unit-test")]
           [El g [] [nameLabel sample_props]]].
Proof.
  apply (proj1 (proj2 (proj2 (proj2
           (label_is_truncated_with_tooltip sample_props measured_hooks
              Layout.zero))))).
  split; [discriminate|reflexivity].
Defined.

Lemma badge_tooltip_precedes_popover_witness :
  exists bl,
    badgeLabel badge_props measured_hooks Layout.zero = Some bl /\
    badgeComponent badge_props measured_hooks Layout.zero
    = El Tooltip [("triggerRef", VRef badgeLabelTriggerRef);
                  ("content", VNode (External "badge-tip"))] [bl].
Proof.
  eexists. split; [reflexivity|].
  apply (proj1 (proj2 (proj1 (proj2 (proj2
           (badge_tooltip_precedes_popover badge_props measured_hooks
              Layout.zero)))
           _ eq_refl)));
    reflexivity.
Defined.

(** * Further facts *)

(** ** Arithmetic in the field of [number] *)







(** ** The wrapper's defaults *)

Lemma innerProps_layout `{Imports} (p : TaskNodeProps) (h : HookState) :
  layout (innerProps p) h = layout p h
  /\ layoutDeps (innerProps p) h = layoutDeps p h.
Proof. split; reflexivity. Qed.

Lemma innerProps_render `{Imports} (p : TaskNodeProps) (h : HookState)
    (l : Layout.t) :
  render (innerProps p) h l = render p h l.
Proof.
  assert (Hshown : hiddenStatusShown (innerProps p) = hiddenStatusShown p).
  { unfold hiddenStatusShown, innerProps. cbn.
    destruct (hiddenDetailsShownStatuses p); reflexivity. }
  unfold render, renderTask, statusDot. rewrite Hshown. reflexivity.
Qed.

(** X3: the defaults [TaskNode] fills in are the ones [TaskNodeInner]
    applies itself: rendering the props [TaskNode] passes on gives the
    same outcome, the same edge effect, the same warnings and the same
    anchors as rendering the caller's props, and filling in the defaults
    twice changes nothing more. *)
Theorem TaskNode_defaults_agree `{Imports} (p : TaskNodeProps)
    (h : HookState) (cell : MemoCell) (pillWidth : number) :
  TaskNodeInner (innerProps p) h cell = TaskNodeInner p h cell /\
  sourceEdgesEffect (innerProps p) pillWidth = sourceEdgesEffect p pillWidth /\
  consoleWarnings (innerProps p) = consoleWarnings p /\
  sourceAnchorArgs (innerProps p) = sourceAnchorArgs p /\
  targetAnchorOffset (innerProps p) = targetAnchorOffset p /\
  innerProps (innerProps p) = innerProps p.
Proof.
  split; [|repeat split].
  - unfold TaskNodeInner, useLayout.
    destruct (innerProps_layout p h) as [-> ->].
    destruct (useMemo cell (layout p h) (layoutDeps p h)) as [[l cell']|e];
      [|reflexivity].
    cbn. rewrite innerProps_render. reflexivity.
  - unfold innerProps. cbn.
    destruct (hiddenDetailsShownStatuses p); reflexivity.
Qed.

(** ** What a render returns *)

Lemma useLayout_returns `{Imports} (cell cell' : MemoCell)
    (p : TaskNodeProps) (h : HookState) (l : Layout.t) :
  reachable cell ->
  useLayout cell p h = Ok (l, cell') ->
  layout p h = Ok l /\ cell' = Some (layoutDeps p h, l).
Proof.
  intros Hreach Hstep.
  pose proof (useLayout_transparent cell p h Hreach) as Hval.
  rewrite Hstep in Hval. cbn in Hval. split; [symmetry; exact Hval|].
  unfold useLayout, useMemo in Hstep.
  assert (Hcompute :
            (v ← layout p h; mret (v, Some (layoutDeps p h, v)))
            = Ok (l, cell') -> cell' = Some (layoutDeps p h, l)).
  { destruct (layout p h) as [v|e]; cbn; [|discriminate].
    intros Hok. injection Hok as <- <-. reflexivity. }
  destruct cell as [[prev v]|]; [|exact (Hcompute Hstep)].
  destruct (same_deps prev (layoutDeps p h)) eqn:Hsame;
    [|exact (Hcompute Hstep)].
  cbn in Hstep. injection Hstep as <- <-.
  apply same_deps_eq in Hsame. rewrite Hsame. reflexivity.
Qed.

Lemma useLayout_throws `{Imports} (cell : MemoCell) (p : TaskNodeProps)
    (h : HookState) (e : JsError) :
  reachable cell ->
  useLayout cell p h = Throw e <-> layout p h = Throw e.
Proof.
  intros Hreach.
  pose proof (useLayout_transparent cell p h Hreach) as Hval.
  destruct (useLayout cell p h) as [[l cell']|e'];
    unfold fmap, Result_fmap in Hval; rewrite <- Hval;
    split; intros Heq; try discriminate Heq; injection Heq as <-;
    reflexivity.
Qed.

(** X4: what a render of [TaskNodeInner] returns depends on the current
    props and hook state only, whatever the memo cell holds: it throws
    exactly what the layout callback throws on the current inputs, and
    otherwise it returns the tree drawn from the layout of the current
    inputs and leaves that layout in the cell. *)
Theorem render_outcome `{Imports} (cell : MemoCell) (p : TaskNodeProps)
    (h : HookState) :
  reachable cell ->
  (forall e, TaskNodeInner p h cell = Throw e <-> layout p h = Throw e) /\
  (forall out cell',
     TaskNodeInner p h cell = Ok (out, cell') <->
     exists l, layout p h = Ok l /\ out = render p h l
               /\ cell' = Some (layoutDeps p h, l)).
Proof.
  intros Hreach. unfold TaskNodeInner. split.
  - intros e. rewrite <- (useLayout_throws cell p h e Hreach).
    destruct (useLayout cell p h) as [[l cell']|e']; cbn;
      split; intros Heq; try discriminate Heq; injection Heq as <-;
      reflexivity.
  - intros out cell'.
    destruct (useLayout cell p h) as [[l c]|e] eqn:Hstep; cbn.
    + destruct (useLayout_returns cell c p h l Hreach Hstep) as [Hl Hc].
      split.
      * intros Hok. injection Hok as <- <-. exists l. auto.
      * intros (l' & Hl' & -> & ->). rewrite Hl in Hl'.
        injection Hl' as <-. rewrite Hc. reflexivity.
    + split; [discriminate|].
      intros (l & Hl & _).
      apply (useLayout_throws cell p h e Hreach) in Hstep. congruence.
Qed.

(** X5: after a render that returned, rendering again with inputs that
    have the same dependency array (for instance the same props and
    measurements, or only another hover flag) reuses or recomputes the
    same layout and leaves the memo cell as it was. *)
Theorem rerender_is_stable `{Imports} (cell cell' : MemoCell)
    (p p' : TaskNodeProps) (h h' : HookState) (l : Layout.t) :
  reachable cell ->
  useLayout cell p h = Ok (l, cell') ->
  layoutDeps p' h' = layoutDeps p h ->
  reachable cell' /\ useLayout cell' p' h' = Ok (l, cell').
Proof.
  intros Hreach Hstep Hdeps.
  destruct (useLayout_returns cell cell' p h l Hreach Hstep) as [Hl ->].
  split; [exact (reachable_render cell p h l _ Hreach Hstep)|].
  unfold useLayout, useMemo. rewrite Hdeps.
  destruct (same_deps (layoutDeps p h) (layoutDeps p h)); [reflexivity|].
  rewrite (layout_reads_deps p' p h' h Hdeps), Hl. reflexivity.
Qed.

(** ** The edge effect over time *)

Lemma edge_update_twice (edge : Edge) (a b : JsVal) :
  setData (setData edge (<["indent" := a]> (default ∅ (getData edge))))
    (<["indent" := b]>
       (default ∅
          (getData
             (setData edge
                (<["indent" := a]> (default ∅ (getData edge)))))))
  = setData edge (<["indent" := b]> (default ∅ (getData edge))).
Proof. unfold setData. cbn. rewrite insert_insert_eq. reflexivity. Qed.

(** X6: the effect leaves no trace of an earlier run: run on the edges
    an earlier run produced, for any pill width, it gives what it gives
    on the original edges; so the last run wins, and a second run for
    the same pill width changes nothing. *)
Theorem edge_effect_last_run_wins (p p' : TaskNodeProps)
    (w1 w2 : number) :
  element p' = with_sourceEdges (sourceEdgesEffect p w1) (element p) ->
  sourceEdgesEffect p' w2 = sourceEdgesEffect p w2 /\
  sourceEdgesEffect p' w1 = getSourceEdges (element p').
Proof.
  intros Hel.
  assert (Hgen : forall w, sourceEdgesEffect p' w = sourceEdgesEffect p w).
  { intros w. unfold sourceEdgesEffect at 1. rewrite Hel. cbn.
    unfold sourceEdgesEffect. rewrite map_map.
    apply map_ext. intros edge. apply edge_update_twice. }
  split; [apply Hgen|]. rewrite Hgen, Hel. reflexivity.
Qed.

Lemma edge_effect_last_run_wins_witness :
  sourceEdgesEffect after_effect_props #100
  = sourceEdgesEffect sample_props #100 /\
  sourceEdgesEffect after_effect_props #136
  = getSourceEdges (element after_effect_props).
Proof.
  apply (edge_effect_last_run_wins sample_props after_effect_props).
  reflexivity.
Defined.

(** ** Layout and rendering agree *)

Lemma layout_measured_inv (p : TaskNodeProps) (h : HookState)
    (l : Layout.t) :
  is_Some (textSize h) -> layout p h = Ok l ->
  exists lead,
    l = chain_layout p h lead /\
    ((truthy_node (leadIcon p) = true /\
      exists ls, leadSize h = Some ls
                 /\ lead = width ls + default #8 (paddingX p))
     \/ (truthy_node (leadIcon p) = false /\ lead = 0)).
Proof.
  intros Hts Hl. rewrite layout_measured in Hl by assumption.
  unfold lead_space in Hl.
  destruct (truthy_node (leadIcon p)).
  - destruct (leadSize h) as [ls|]; [|discriminate Hl].
    cbn in Hl. injection Hl as <-. eexists. split; [reflexivity|].
    left. split; [reflexivity|]. exists ls. split; reflexivity.
  - cbn in Hl. injection Hl as <-. eexists. split; [reflexivity|].
    right. split; reflexivity.
Qed.

(** X7: the layout leaves no gap for a sub-element that is not drawn:
    when the status group, the lead icon, the badge, the action icon or
    the context menu is absent from the pill, the offset after it equals
    the offset before it. *)
Theorem no_space_for_undrawn `{Imports} (p : TaskNodeProps)
    (h : HookState) (l : Layout.t) :
  is_Some (textSize h) -> layout p h = Ok l ->
  let padX := default #8 (paddingX p) in
  (statusGroup p l = Null -> Layout.leadIconStartX l = padX + padX / #2) /\
  (leadIconGroup p h l = Null ->
   Layout.textStartX l = Layout.leadIconStartX l) /\
  (badgeComponent p h l = Null ->
   Layout.actionStartX l = Layout.badgeStartX l) /\
  (actionGroup p l = Null ->
   Layout.contextStartX l = Layout.actionStartX l) /\
  (contextGroup p h l = Null ->
   Layout.pillWidth l = Layout.contextStartX l + padX / #2).
Proof.
  intros Hts Hl. cbn zeta.
  destruct (layout_measured_inv p h l Hts Hl) as (lead & -> & Hlead).
  cbn [chain_layout Layout.leadIconStartX Layout.textStartX
       Layout.actionStartX Layout.badgeStartX Layout.contextStartX
       Layout.pillWidth].
  split; [|split; [|split; [|split]]].
  - unfold statusGroup, status_shown.
    destruct (truthy (status p) && default true (showStatusState p));
      [discriminate|].
    intros _. unfold guarded_space.
    destruct (statusSize h); apply Qcplus_0_r.
  - unfold leadIconGroup.
    destruct Hlead as [[Hicon _]|[Hicon ->]]; rewrite Hicon;
      [discriminate|].
    intros _. apply Qcplus_0_r.
  - unfold badgeComponent, badgeLabel.
    destruct (truthy_str (badge p)); cbn.
    + destruct (truthy_node (badgeTooltip p)); [discriminate|].
      destruct (truthy (badgePopoverParams p)); discriminate.
    + intros _. unfold guarded_space.
      destruct (badgeSize h); apply Qcplus_0_r.
  - unfold actionGroup.
    destruct (truthy_node (actionIcon p)); [discriminate|].
    intros _. unfold guarded_space.
    destruct (actionSize h); apply Qcplus_0_r.
  - unfold contextGroup. destruct Hts as [ts Hts]. rewrite Hts. cbn.
    destruct (truthy (onContextMenu p)); [discriminate|].
    intros _. unfold guarded_space.
    destruct (contextSize h); rewrite Qcplus_0_r; reflexivity.
Qed.

Lemma no_space_for_undrawn_witness :
  let l := chain_layout sample_props measured_hooks 0 in
  Layout.actionStartX l = Layout.badgeStartX l.
Proof.
  apply (no_space_for_undrawn sample_props measured_hooks).
  - eexists; reflexivity.
  - exact sample_layout.
  - reflexivity.
Defined.










(** ** Vertical placement *)



(** ** Props and state that do not reach the drawing *)

(** X10: nameLabelClass, badgePopoverProps and hasWhenExpression never
    reach what is drawn: whatever their values, a render has the same
    outcome, the edge effect and the source anchor are the same;
    badgePopoverProps decides the deprecation warning alone, and
    hasWhenExpression is read by the target anchor alone. *)
Theorem side_props_are_not_drawn `{Imports} (cls popoverProps : option string)
    (whenExpr : option bool) (p : TaskNodeProps) (h : HookState)
    (cell : MemoCell) (pillWidth : number) :
  let p' := with_side_props cls popoverProps whenExpr p in
  TaskNodeInner p' h cell = TaskNodeInner p h cell /\
  sourceEdgesEffect p' pillWidth = sourceEdgesEffect p pillWidth /\
  sourceAnchorArgs p' = sourceAnchorArgs p /\
  consoleWarnings p'
  = consoleWarnings
      (with_side_props (nameLabelClass p) popoverProps (hasWhenExpression p)
                       p) /\
  targetAnchorOffset p'
  = targetAnchorOffset
      (with_side_props (nameLabelClass p) (badgePopoverProps p) whenExpr p).
Proof. cbn zeta. repeat split. Qed.

Lemma with_hovered_render `{Imports} (p : TaskNodeProps) (h : HookState)
    (b : bool) (l : Layout.t) :
  is_Some (hover p) -> render p (with_hovered b h) l = render p h l.
Proof.
  intros [given Hhover].
  assert (Hsame : isHover p (with_hovered b h) = isHover p h)
    by (unfold isHover; rewrite Hhover; reflexivity).
  unfold render, renderTask, pill, pillClasses, pillClassArgs, filter.
  rewrite Hsame. reflexivity.
Qed.

(** X11: the pointer never changes the layout, and when the hover prop
    is given it changes nothing at all: the render has the same outcome
    whether or not the pointer is over the node. *)
Theorem hover_prop_overrides_pointer `{Imports} (p : TaskNodeProps)
    (h : HookState) (b : bool) (cell : MemoCell) :
  useLayout cell p (with_hovered b h) = useLayout cell p h /\
  (is_Some (hover p) ->
   TaskNodeInner p (with_hovered b h) cell = TaskNodeInner p h cell).
Proof.
  split; [reflexivity|]. intros Hhover. unfold TaskNodeInner.
  change (useLayout cell p (with_hovered b h)) with (useLayout cell p h).
  destruct (useLayout cell p h) as [[l cell']|e]; [|reflexivity].
  cbn. rewrite with_hovered_render by assumption. reflexivity.
Qed.

Lemma hover_prop_overrides_pointer_witness :
  TaskNodeInner hovered_failed_props (with_hovered false measured_hooks) None
  = TaskNodeInner hovered_failed_props measured_hooks None.
Proof.
  apply (hover_prop_overrides_pointer hovered_failed_props measured_hooks).
  eexists; reflexivity.
Defined.

(** ** Tooltips *)

Lemma renderTask_has_taskRef `{Imports} (p : TaskNodeProps) (h : HookState)
    (l : Layout.t) :
  In ("ref", VRef taskRef) (elt_props (renderTask p h l)).
Proof.
  unfold renderTask. destruct (detailsHidden p); cbn; tauto.
Qed.

(** X12: the node tooltip wraps whatever [renderTask] returns exactly
    when toolTip is set and disableTooltip is false, and its trigger ref
    is carried by the status dot as well as by the pill; disableTooltip
    silences the node tooltip and the label tooltip, but a badge tooltip
    is still drawn. *)
Theorem node_tooltip_wraps_task `{Imports} (p : TaskNodeProps)
    (h : HookState) (l : Layout.t) :
  In ("ref", VRef taskRef) (elt_props (renderTask p h l)) /\
  (truthy_node (toolTip p) = true /\ default false (disableTooltip p) = false
   -> exists attrs tip,
        render p h l = El g attrs [El Tooltip tip [renderTask p h l]]
        /\ In ("triggerRef", VRef taskRef) tip
        /\ In ("content", VOptNode (toolTip p)) tip) /\
  (truthy_node (toolTip p) = false \/ default false (disableTooltip p) = true
   -> exists attrs, render p h l = El g attrs [renderTask p h l]) /\
  (default false (disableTooltip p) = true ->
   contains_tag Tooltip (labelGroup p h l) = false) /\
  (default false (disableTooltip p) = true ->
   detailsHidden p = false ->
   truthy_str (badge p) = true -> truthy_node (badgeTooltip p) = true ->
   contains_tag Tooltip (renderTask p h l) = true).
Proof.
  split; [apply renderTask_has_taskRef|].
  split; [|split; [|split]].
  - intros [Htip Hdis]. unfold render.
    destruct (getNodeScaleTranslation (element p) (nodeScale h) (scaleNode p))
      as [tx ty].
    rewrite Htip, Hdis. cbn [negb orb]. do 2 eexists.
    split; [reflexivity|]. cbn. tauto.
  - intros Hor. unfold render.
    destruct (getNodeScaleTranslation (element p) (nodeScale h) (scaleNode p))
      as [tx ty].
    assert (Hcond : negb (truthy_node (toolTip p))
                    || default false (disableTooltip p) = true)
      by (destruct Hor as [-> | ->]; [reflexivity|apply orb_true_r]).
    rewrite Hcond. eexists. reflexivity.
  - intros Hdis. unfold labelGroup. rewrite Hdis.
    rewrite andb_false_r. reflexivity.
  - intros _ Hshown Hbadge Htip. unfold renderTask. rewrite Hshown.
    unfold pill. cbn [contains_tag]. apply orb_true_iff. right.
    apply existsb_exists. exists (badgeComponent p h l). split.
    + cbn. tauto.
    + unfold badgeComponent, badgeLabel. rewrite Hbadge, Htip. reflexivity.
Qed.

Lemma node_tooltip_wraps_task_witness :
  contains_tag Tooltip
    (renderTask full_props full_hooks Layout.zero) = true.
Proof.
  apply (node_tooltip_wraps_task full_props full_hooks Layout.zero);
    reflexivity.
Defined.

(** ** The task icon *)





(** ** The status dot *)


(** ** A wider label *)







(** ** Anchors *)


(** ** Status styling outside the pill's own classes *)

Lemma css_classes_incl (args : list (option string)) (cls : string) :
  In (Some cls) args -> incl (css_classes [Some cls]) (css_classes args).
Proof.
  intros Hin c Hc. unfold css_classes in Hc. cbn [omap list_omap] in Hc.
  destruct (truthy_str (Some cls)) eqn:Hcls; cbn in Hc; [|destruct Hc].
  destruct Hc as [<-|[]]. apply css_classes_keeps; assumption.
Qed.

(** X17: the class [css] makes of the run status modifier also styles
    the status icon of the pill and, in the collapsed rendering, the
    circle of the status dot and the icon drawn on it. *)
Theorem run_status_styles_status_icons `{Imports} (p : TaskNodeProps)
    (l : Layout.t) :
  let modifier := css_classes [Some (getRunStatusModifier (status p))] in
  (exists attrs args rest icon,
     statusDot p
     = El g attrs [El circle (("className", VStr (css args)) :: rest) [];
                   icon]
     /\ incl modifier (css_classes args)) /\
  (hiddenStatusShown p = true ->
   exists attrs circ shift args kids,
     statusDot p
     = El g attrs
         [circ; El g shift [El g [("className", VStr (css args))] kids]]
     /\ incl modifier (css_classes args)) /\
  (statusGroup p l <> Null ->
   exists attrs args kids,
     statusGroup p l
     = El g attrs [El g [("className", VStr (css args))] kids]
     /\ incl modifier (css_classes args)).
Proof.
  cbn zeta. split; [|split].
  - unfold statusDot. do 4 eexists. split; [reflexivity|].
    apply css_classes_incl. unfold runStatusModifier. cbn. tauto.
  - intros Hshown. unfold statusDot. rewrite Hshown. do 5 eexists.
    split; [reflexivity|].
    apply css_classes_incl. unfold runStatusModifier. cbn. tauto.
  - unfold statusGroup.
    destruct (truthy (status p) && default true (showStatusState p));
      [|intros Hno; contradiction Hno; reflexivity].
    intros _. do 3 eexists. split; [reflexivity|].
    apply css_classes_incl. unfold runStatusModifier. cbn. tauto.
Qed.

(** ** The further facts at concrete inputs *)

Lemma render_outcome_witness :
  TaskNodeInner sample_props measured_hooks None
  = Ok (render sample_props measured_hooks
          (chain_layout sample_props measured_hooks 0),
        Some (layoutDeps sample_props measured_hooks,
              chain_layout sample_props measured_hooks 0)).
Proof.
  apply (proj2 (proj2 (render_outcome None sample_props measured_hooks
                         reachable_init) _ _)).
  exists (chain_layout sample_props measured_hooks 0).
  split; [exact sample_layout|]. split; reflexivity.
Defined.

Lemma sample_first_render :
  useLayout None sample_props measured_hooks
  = Ok (chain_layout sample_props measured_hooks 0,
        Some (layoutDeps sample_props measured_hooks,
              chain_layout sample_props measured_hooks 0)).
Proof. unfold useLayout, useMemo. rewrite sample_layout. reflexivity. Qed.

Lemma rerender_is_stable_witness :
  let cell := Some (layoutDeps sample_props measured_hooks,
                    chain_layout sample_props measured_hooks 0) in
  reachable cell /\
  useLayout cell sample_props (with_hovered true measured_hooks)
  = Ok (chain_layout sample_props measured_hooks 0, cell).
Proof.
  apply (rerender_is_stable None _ sample_props sample_props measured_hooks
           (with_hovered true measured_hooks)).
  - apply reachable_init.
  - exact sample_first_render.
  - reflexivity.
Defined.
